(** * SkillMatch: the skill-matching and recommendation engine of [analysis.py]

    A shallow embedding of the pure core of [analysis.py] together with the
    orchestration function [vacancy_description_and_applicant_skills].

    Modelling conventions:
    - a Python [str] is a [string] (the bytes of its UTF-8 encoding);
    - a Python [set] of strings is a [gset string];
    - a Python number is the rational [Q] it denotes; equality of results
      is [Qeq] ([==]). [calculate_precision] is stated on the exact quotient
      of its one integer division; the analysis keeps each precision as the
      double nearest to that quotient and computes their sum and mean in
      IEEE 754 binary64, with the operations of the Standard Library's
      [SpecFloat];
    - an exception is an explicit error value in the [py] monad below;
    - the network ([requests.get]) and the two easyoffer look-ups are
      parameters of the section that embeds the orchestration; the answer to
      a request is a function of the link requested;
    - the postings are well-formed JSON objects, so that only request errors
      and the division can raise. *)

From Stdlib Require Import QArith Lia Ascii String SpecFloat.
From stdpp Require Import gmap strings list sorting.

Local Open Scope Q_scope.

#[local] Set Warnings "-clear-no-such-hyp".

(** ** Exceptions *)

Inductive py_exn : Set :=
  | RequestException
  | ZeroDivisionError.

Definition py (A : Type) : Type := py_exn + A.

Definition py_ret {A} (a : A) : py A := inr a.
Definition py_raise {A} (e : py_exn) : py A := inl e.
Definition py_bind {A B} (m : py A) (k : A -> py B) : py B :=
  match m with
  | inl e => inl e
  | inr a => k a
  end.

#[global] Instance py_mret : MRet py := @py_ret.
#[global] Instance py_mbind : MBind py := fun A B k m => py_bind m k.

(** Python's [a / b] on numbers. *)
Definition py_truediv (a b : Q) : py Q :=
  if Qeq_bool b 0 then py_raise ZeroDivisionError else py_ret (a / b).

(** [len(l)] as a number. *)
Definition py_len {A} (l : list A) : Q := inject_Z (Z.of_nat (length l)).

(** ** Double-precision numbers

    A Python [float] is an IEEE 754 binary64 number: 53 bits of precision,
    exponents below 1024. A double is kept as the rational it denotes; the
    operations go through [spec_float]. The conversions are exact on the
    integers below 2^53, hence on every list length and on every double that
    the analysis meets. *)

Definition Z_to_double (z : Z) : spec_float := binary_normalize 53 1024 z 0 false.

(** [2^e] as a rational. *)
Definition Qpow2 (e : Z) : Q :=
  match e with
  | Z0 => 1
  | Zpos p => inject_Z (Z.pow_pos 2 p)
  | Zneg p => 1 # Pos.pow 2 p
  end.

(** The rational that a finite double denotes; infinities and NaN do not
    arise from the numbers of the analysis. *)
Definition double_value (f : spec_float) : Q :=
  match f with
  | S754_finite s m e =>
      (if s then inject_Z (Zneg m) else inject_Z (Zpos m)) * Qpow2 e
  | _ => 0
  end.

(** The double of a quotient of two integers: the one nearest to it, ties
    to even. A rational that is a double is mapped to itself. *)
Definition to_double (q : Q) : spec_float :=
  let r := Qred q in
  SFdiv 53 1024 (Z_to_double (Qnum r)) (Z_to_double (Zpos (Qden r))).

(** The value that Python holds for the quotient [q]. *)
Definition py_float (q : Q) : Q := double_value (to_double q).

(** [a + b] on doubles. *)
Definition py_float_add (a b : Q) : Q :=
  double_value (SFadd 53 1024 (to_double a) (to_double b)).

(** [a / b] with a double [a] and an integer [b]. *)
Definition py_float_truediv (a b : Q) : py Q :=
  if Qeq_bool b 0 then py_raise ZeroDivisionError
  else py_ret (double_value (SFdiv 53 1024 (to_double a) (to_double b))).

(** [sum(l)]: the doubles are added from left to right, starting from [0],
    each addition rounded. This is the loop of the built-in [sum] of CPython
    up to version 3.11. *)
Definition py_sum (l : list Q) : Q := fold_left py_float_add l 0.

(** From version 3.12 on, the built-in [sum] carries next to the running sum
    [f] a compensation [c] for the rounding errors (Neumaier's variant of
    Kahan's algorithm) and adds it at the end. *)
Definition neumaier_step (st : spec_float * spec_float) (x : spec_float)
  : spec_float * spec_float :=
  let f := st.1 in
  let c := st.2 in
  let t := SFadd 53 1024 f x in
  if SFleb (SFabs x) (SFabs f) then
    (t, SFadd 53 1024 c (SFadd 53 1024 (SFsub 53 1024 f t) x))
  else
    (t, SFadd 53 1024 c (SFadd 53 1024 (SFsub 53 1024 x t) f)).

Definition py_sum_compensated (l : list Q) : Q :=
  let st := fold_left neumaier_step (map to_double l) (S754_zero false, S754_zero false) in
  match st.2 with
  | S754_finite _ _ _ => double_value (SFadd 53 1024 st.1 st.2)
  | _ => double_value st.1
  end.


(** ** [calculate_precision] *)

Definition calculate_precision (user_skills vacancy_skills : list string) : py Q :=
  if Nat.eqb (length vacancy_skills) 0 then py_ret 0
  else
    let intersection :=
      size ((list_to_set user_skills : gset string) ∩ list_to_set vacancy_skills) in
    py_truediv (inject_Z (Z.of_nat intersection)) (py_len vacancy_skills).

(** The precision as the analysis receives it: the double nearest to the
    quotient. *)
Definition calculate_precision_double (user_skills vacancy_skills : list string)
  : py Q :=
  q ← calculate_precision user_skills vacancy_skills;
  mret (py_float q).

(** ** Vacancy records and [get_top_vacancies] *)

(** The dictionary built for each vacancy by the analysis loop. *)
Record vacancy : Type := Vacancy {
  name : string;
  alternate_url : string;
  description : string;
  vacancy_skills : list string;
  similarity : Q
}.

(** [a < b] on numbers, as a boolean. *)
Definition Qlt_bool (a b : Q) : bool := negb (Qle_bool b a).

(** [sorted(l, key=key, reverse=True)]: a stable sort, largest key first.
    Stability means that an element is placed in front of the first element
    whose key is not larger than its own. *)
Fixpoint insert_reverse {A} (key : A -> Q) (x : A) (l : list A) : list A :=
  match l with
  | [] => [x]
  | y :: ys =>
      if Qle_bool (key y) (key x) then x :: y :: ys
      else y :: insert_reverse key x ys
  end.

Fixpoint sorted_reverse {A} (key : A -> Q) (l : list A) : list A :=
  match l with
  | [] => []
  | x :: xs => insert_reverse key x (sorted_reverse key xs)
  end.

(** The slice [l[:n]]: a negative [n] counts from the end of the list. *)
Definition slice_to {A} (l : list A) (n : Z) : list A :=
  if (0 <=? n)%Z then take (Z.to_nat n) l
  else take (Z.to_nat (Z.of_nat (length l) + n)) l.

Definition top_n_default : Z := 3%Z.

(** [top_n = None] stands for a call that omits the argument. *)
Definition get_top_vacancies (vacancies : list vacancy) (top_n : option Z)
  : list vacancy :=
  let top_n := default top_n_default top_n in
  let sorted_vacancies := sorted_reverse similarity vacancies in
  let top_vacancies := slice_to sorted_vacancies top_n in
  top_vacancies.

(** ** [recommend_courses] *)

Definition coursera_search : string := "https://www.coursera.org/search?query=".

Fixpoint recommend_courses_loop (skills : list string)
    (recommendations : list (string * string)) : list (string * string) :=
  match skills with
  | [] => recommendations
  | skill :: rest =>
      let search_url := coursera_search +:+ skill in
      recommend_courses_loop rest (recommendations ++ [(skill, search_url)])
  end.

Definition recommend_courses (skills : list string) : list (string * string) :=
  recommend_courses_loop skills [].

(** ** [urllib.parse.quote_plus] *)

Definition in_range (lo hi n : N) : bool := ((lo <=? n) && (n <=? hi))%N.

(** The characters [quote] never escapes: ASCII letters, digits and [_.-~]. *)
Definition always_safe (c : ascii) : bool :=
  let n := N_of_ascii c in
  in_range 65 90 n || in_range 97 122 n || in_range 48 57 n
  || (n =? 95)%N || (n =? 46)%N || (n =? 45)%N || (n =? 126)%N.

Definition hex_digit (n : N) : ascii :=
  if (n <? 10)%N then ascii_of_N (48 + n) else ascii_of_N (55 + n).

Fixpoint string_mem (c : ascii) (s : string) : bool :=
  match s with
  | EmptyString => false
  | String d rest => Ascii.eqb c d || string_mem c rest
  end.

Definition quote_byte (safe : string) (c : ascii) : string :=
  if always_safe c || string_mem c safe then String c EmptyString
  else
    let n := N_of_ascii c in
    String "%" (String (hex_digit (n / 16)) (String (hex_digit (n mod 16)) EmptyString)).

Fixpoint quote (safe : string) (s : string) : string :=
  match s with
  | EmptyString => EmptyString
  | String c rest => quote_byte safe c +:+ quote safe rest
  end.

(** [s.replace(' ', '+')] *)
Fixpoint replace_space_plus (s : string) : string :=
  match s with
  | EmptyString => EmptyString
  | String c rest =>
      String (if Ascii.eqb c " " then "+"%char else c) (replace_space_plus rest)
  end.

Definition quote_plus (s : string) : string :=
  if negb (string_mem " " s) then quote "" s
  else replace_space_plus (quote " " s).

(** ** Results of the recommendation step and of the analysis *)

(** [generate_recommendations] returns a [str], a list of pairs, or falls off
    its end ([None]). *)
Inductive recommendation : Type :=
  | BroadSearchLink (url : string)
  | CourseList (courses : list (string * string))
  | NoRecommendation.

(** [get_interview_questions] returns a list, or the empty [str] after a
    request error. *)
Inductive questions_value : Type :=
  | QuestionList (questions : list string)
  | QuestionsEmptyStr.

(** The [result] dictionary: a key that is not set is [None] here. *)
Record analysis_result : Type := AnalysisResult {
  similarity_score : Q;
  precision_list : list Q;
  questions : option questions_value;
  offers : option (list vacancy);
  recommendations : option recommendation
}.

(** The data read from the JSON body of one posting:
    [data.get("name", "")], [data.get("alternate_url", "")],
    [data.get("description", "")] and the [name] of each entry of
    [data.get("key_skills", \[\])]. *)
Record posting : Type := Posting {
  posting_name : string;
  posting_alternate_url : string;
  posting_description : string;
  posting_key_skills : list string
}.

(** The default [0.8] of both thresholds. A threshold is compared as the
    number it denotes: the double that Python holds for [0.8] (and for [0.9])
    is the smallest double not below it, so that a double is below the one
    exactly when it is below the other. *)
Definition threshold_default : Q := 8 # 10.

Section Engine.

(** [requests.get(link)], [raise_for_status()] and [response.json()]:
    [None] when any of them raises a [RequestException]. *)
Variable fetch_json : string -> option posting.

(** [str.lower]. *)
Variable lower : string -> string.

(** [get_interview_questions(get_vacancy_easyoffer(title))]; both look-ups
    catch their own request errors. *)
Variable interview_questions : string -> questions_value.

(** The order in which a set is iterated by [list(s)]. *)
Variable set_order : gset string -> list string.

Definition get_missing_skills (user_skills required_skills : list string)
  : list string :=
  set_order ((list_to_set required_skills : gset string) ∖ list_to_set user_skills).

(** The [for] loop of [generate_recommendations]. *)
Fixpoint collect_missing (applicant_skills : list string) (threshold : Q)
    (vacancies : list vacancy) (missing_skills : gset string) : gset string :=
  match vacancies with
  | [] => missing_skills
  | v :: rest =>
      if Qlt_bool (similarity v) threshold then
        let vacancy_miss := get_missing_skills applicant_skills (vacancy_skills v) in
        collect_missing applicant_skills threshold rest
          (missing_skills ∪ list_to_set vacancy_miss)
      else collect_missing applicant_skills threshold rest missing_skills
  end.

Definition generate_recommendations (vacancy_title : string)
    (applicant_skills : list string) (vacancies : list vacancy)
    (threshold : option Q) : recommendation :=
  let threshold := default threshold_default threshold in
  let missing_skills := collect_missing applicant_skills threshold vacancies ∅ in
  if (3 <? size missing_skills)%nat then
    let query := quote_plus vacancy_title in
    let profession_url := coursera_search +:+ query in
    BroadSearchLink profession_url
  else if negb (size missing_skills =? 0)%nat then
    CourseList (recommend_courses (set_order missing_skills))
  else NoRecommendation.

Definition fetch (link : string) : py posting :=
  match fetch_json link with
  | Some data => mret data
  | None => py_raise RequestException
  end.

(** The [for link in links] loop of the analysis. *)
Fixpoint fetch_loop (applicant_skills : list string) (links : list string)
    (precisions : list Q) (vacancies : list vacancy)
  : py (list Q * list vacancy) :=
  match links with
  | [] => mret (precisions, vacancies)
  | link :: rest =>
      data ← fetch link;
      let vacancy_skills := map lower (posting_key_skills data) in
      precision ← calculate_precision_double applicant_skills vacancy_skills;
      fetch_loop applicant_skills rest
        (precisions ++ [precision])
        (vacancies ++ [Vacancy (posting_name data) (posting_alternate_url data)
                         (posting_description data) vacancy_skills precision])
  end.

(** The body of the [try] block. *)
Definition analysis_body (vacancy_title : string) (applicant_skills : list string)
    (links : list string) (threshold_ready : Q) : py analysis_result :=
  let applicant_skills := map lower applicant_skills in
  pv ← fetch_loop applicant_skills links [] [];
  let precisions := pv.1 in
  let vacancies := pv.2 in
  similarity_score ← py_float_truediv (py_sum precisions) (py_len precisions);
  if Qle_bool threshold_ready similarity_score then
    mret (AnalysisResult similarity_score precisions
            (Some (interview_questions vacancy_title))
            (Some (get_top_vacancies vacancies None))
            None)
  else
    mret (AnalysisResult similarity_score precisions None None
            (Some (generate_recommendations vacancy_title applicant_skills
                     vacancies None))).

(** The whole function: [inr None] is [return None], [inl e] an exception
    that leaves the function. *)
Definition vacancy_description_and_applicant_skills (vacancy_title : string)
    (applicant_skills : list string) (links : list string)
    (threshold_ready : option Q) : py (option analysis_result) :=
  let threshold_ready := default threshold_default threshold_ready in
  match analysis_body vacancy_title applicant_skills links threshold_ready with
  | inr result => inr (Some result)
  | inl RequestException => inr None
  | inl e => inl e
  end.

End Engine.

(** ** Notions used to state the properties *)

(** A call returns normally, with a number equal to [q]. *)
Definition returns_number (m : py Q) (q : Q) : Prop :=
  exists r, m = inr r /\ r == q.

(** The ratio [|S ∩ R| / |R|] on the sets of skills of two lists. *)
Definition set_based_ratio (U R : list string) : Q :=
  inject_Z (Z.of_nat (size ((list_to_set U : gset string) ∩ list_to_set R)))
  / inject_Z (Z.of_nat (size (list_to_set R : gset string))).


(** A list is in descending order of [key]. *)
Definition sorted_descending {A} (key : A -> Q) (l : list A) : Prop :=
  StronglySorted (fun a b => key b <= key a) l.

(** The elements of [l'] with a given key are those of [l], in the same
    order. *)
Definition ties_in_order {A} (key : A -> Q) (l l' : list A) : Prop :=
  forall q, List.filter (fun a => Qeq_bool (key a) q) l'
            = List.filter (fun a => Qeq_bool (key a) q) l.

(** [l'] is [l] stably sorted by [key], largest first. *)
Definition stable_sort_descending {A} (key : A -> Q) (l l' : list A) : Prop :=
  l' ≡ₚ l /\ sorted_descending key l' /\ ties_in_order key l l'.

(** The union of the missing-skill sets of the vacancies whose precision is
    below [threshold]. *)
Definition missing_union (applicant_skills : list string) (vacancies : list vacancy)
    (threshold : Q) : gset string :=
  ⋃ (map (fun v => (list_to_set (vacancy_skills v) : gset string)
                   ∖ list_to_set applicant_skills)
       (List.filter (fun v => Qlt_bool (similarity v) threshold) vacancies)).

(** Decoding of a percent-encoded query string: [+] is a space and [%XY] the
    byte with hexadecimal digits [X] and [Y]. *)
Definition hex_value (c : ascii) : option N :=
  let n := N_of_ascii c in
  if in_range 48 57 n then Some (n - 48)%N
  else if in_range 65 70 n then Some (n - 55)%N
  else if in_range 97 102 n then Some (n - 87)%N
  else None.

Fixpoint unquote_plus (s : string) : string :=
  match s with
  | EmptyString => EmptyString
  | String c rest =>
      if Ascii.eqb c "+" then String " " (unquote_plus rest)
      else if Ascii.eqb c "%" then
        match rest with
        | String h (String l rest') =>
            match hex_value h, hex_value l with
            | Some a, Some b => String (ascii_of_N (16 * a + b)) (unquote_plus rest')
            | _, _ => String c (unquote_plus rest)
            end
        | _ => String c (unquote_plus rest)
        end
      else String c (unquote_plus rest)
  end.

(** The characters of an encoded query: unreserved ones, [%] and [+]. *)
Definition query_char (c : ascii) : bool :=
  always_safe c || Ascii.eqb c "%" || Ascii.eqb c "+".

Fixpoint all_chars (p : ascii -> bool) (s : string) : bool :=
  match s with
  | EmptyString => true
  | String c rest => p c && all_chars p rest
  end.

(** What [quote_plus] does to one byte. *)
Definition encode_plus (c : ascii) : string :=
  if Ascii.eqb c " " then "+"%string else quote_byte "" c.

Fixpoint encode_string (s : string) : string :=
  match s with
  | EmptyString => EmptyString
  | String c rest => encode_plus c +:+ encode_string rest
  end.


Definition not_ready_branch (r : analysis_result) : Prop :=
  questions r = None /\ offers r = None /\ is_Some (recommendations r).

(** The value of a call of [calculate_precision], which always returns. *)
Definition precision_value (U R : list string) : Q :=
  match calculate_precision U R with
  | inr q => q
  | inl _ => 0
  end.

(** The record the analysis loop builds from one posting. *)
Definition record_of (lower : string -> string) (applicant_skills : list string)
    (data : posting) : vacancy :=
  let vacancy_skills := map lower (posting_key_skills data) in
  Vacancy (posting_name data) (posting_alternate_url data) (posting_description data)
    vacancy_skills (py_float (precision_value applicant_skills vacancy_skills)).

(** The records of the references that resolve, in input order: what a
    fetch stage that skips failed references would return. *)
Definition resolved_records (fetch_json : string -> option posting)
    (lower : string -> string) (applicant_skills : list string)
    (links : list string) : list vacancy :=
  map (record_of lower applicant_skills) (omap fetch_json links).

(** ** A sample world *)

Definition lower_char (c : ascii) : ascii :=
  let n := N_of_ascii c in
  if in_range 65 90 n then ascii_of_N (n + 32) else c.

Fixpoint ascii_lower (s : string) : string :=
  match s with
  | EmptyString => EmptyString
  | String c rest => String (lower_char c) (ascii_lower rest)
  end.

Definition link_1 : string := "https://api.hh.ru/vacancies/1".
Definition link_2 : string := "https://api.hh.ru/vacancies/2".
Definition link_3 : string := "https://api.hh.ru/vacancies/3".
Definition link_4 : string := "https://api.hh.ru/vacancies/4".
Definition link_5 : string := "https://api.hh.ru/vacancies/5".
Definition link_gone : string := "https://api.hh.ru/vacancies/404".

Definition sample_fetch (link : string) : option posting :=
  if String.eqb link link_1 then
    Some (Posting "Data Analyst" "https://hh.ru/vacancy/1" "<p>Reports</p>"
            ["Python"; "SQL"; "Docker"; "Git"; "Pandas"; "AWS"]%string)
  else if String.eqb link link_2 then
    Some (Posting "Junior Analyst" "https://hh.ru/vacancy/2" "<p>Dashboards</p>"
            ["SQL"; "Excel"]%string)
  else if String.eqb link link_3 then
    Some (Posting "Analyst" "https://hh.ru/vacancy/3" "<p>Queries</p>"
            ["Python"; "SQL"; "Docker"; "Git"; "AWS"]%string)
  else if String.eqb link link_4 then
    Some (Posting "Cloud Analyst" "https://hh.ru/vacancy/4" "<p>Pipelines</p>"
            ["Python"; "SQL"; "AWS"; "Spark"; "Kafka"]%string)
  else if String.eqb link link_5 then
    Some (Posting "Analyst Intern" "https://hh.ru/vacancy/5" "<p>Scripts</p>"
            ["Python"; "SQL"]%string)
  else None.

Definition sample_questions (title : string) : questions_value :=
  QuestionList ["What is a left join?"%string].

Definition sample_skills : list string :=
  ["Python"; "SQL"; "Docker"; "Git"; "Pandas"]%string.

(** The analysis in the sample world. *)
Definition sample_analysis (links : list string) (threshold_ready : option Q)
  : py (option analysis_result) :=
  vacancy_description_and_applicant_skills sample_fetch ascii_lower sample_questions
    elements "Data Analyst" sample_skills links threshold_ready.

Definition sample_records (links : list string) : list vacancy :=
  resolved_records sample_fetch ascii_lower (map ascii_lower sample_skills) links.

Definition sample_vacancies : list vacancy :=
  [Vacancy "first" "" "" [] (1 # 2); Vacancy "second" "" "" [] (2 # 4);
   Vacancy "third" "" "" [] (95 # 100)].

Definition sample_gap_vacancies : list vacancy :=
  [Vacancy "a" "" "" ["sql"]%string 0;
   Vacancy "b" "" "" ["sql"; "docker"; "react"; "aws"]%string 0].

(** ** [get_links] *)

(** The query parameters of one search request. *)
Record search_params : Type := SearchParams {
  param_text : string;
  param_area : Z;
  param_page : Z;
  param_per_page : Z
}.

(** [str(x)] for a value that is a string or [None]. *)
Definition py_str (x : option string) : string :=
  match x with
  | Some s => s
  | None => "None"
  end.

(** Truth value of a string: only the empty string is false. *)
Definition truthy (s : string) : bool := negb (String.eqb s "").

Section Search.

(** [requests.get("https://api.hh.ru/vacancies", params=params)],
    [raise_for_status()] and [response.json()]: [None] when one of them
    raises a [RequestException], otherwise [data.get("items")] (an absent
    or empty array is [[]]) as the list of [item.get("url")]. *)
Variable search : search_params -> option (list (option string)).

(** The loop over the items of one page. *)
Fixpoint collect_urls (items : list (option string)) (links : list string)
  : list string :=
  match items with
  | [] => links
  | item :: rest =>
      match item with
      | Some vacancy_url =>
          if truthy vacancy_url then collect_urls rest (links ++ [vacancy_url])
          else collect_urls rest links
      | None => collect_urls rest links
      end
  end.

(** The loop [for page in range(pages)], with [count] pages left. *)
Fixpoint get_links_loop (text : string) (count : nat) (page : Z)
    (links : list string) : list string :=
  match count with
  | O => links
  | S count' =>
      let params := SearchParams text 1 page 100 in
      match search params with
      | Some [] => links
      | Some items =>
          get_links_loop text count' (page + 1) (collect_urls items links)
      | None => get_links_loop text count' (page + 1) links
      end
  end.

Definition get_links (vacancy : string) (grade : option string) (pages : option Z)
  : list string :=
  let pages := default 2%Z pages in
  get_links_loop (vacancy +:+ " " +:+ py_str grade) (Z.to_nat pages) 0 [].

End Search.

(** The links that page [p] of a search contributes. *)
Definition page_links (search : search_params -> option (list (option string)))
    (text : string) (p : nat) : list string :=
  match search (SearchParams text 1 (Z.of_nat p) 100) with
  | Some items => List.filter truthy (omap id items)
  | None => []
  end.

(** Page [p] answers with no items. *)
Definition page_is_empty (search : search_params -> option (list (option string)))
    (text : string) (p : nat) : Prop :=
  search (SearchParams text 1 (Z.of_nat p) 100) = Some [].

(** ** [get_vacancy_easyoffer] and [get_interview_questions] *)

(** The first [a] element inside a card title. *)
Record anchor : Type := Anchor {
  anchor_text : string;
  anchor_href : option string
}.

(** [needle in hay] on strings. *)
Fixpoint str_in (needle hay : string) : bool :=
  String.prefix needle hay
  || match hay with
     | EmptyString => false
     | String _ rest => str_in needle rest
     end.

Section Easyoffer.

Variable lower : string -> string.

(** The front page of easyoffer: [None] when the request raises, otherwise
    [h5.find("a")] for each [h5] of class [card-title], in document order. *)
Variable front_page : option (list (option anchor)).

(** The page behind a url: [None] when the request raises, otherwise
    [soup.find("tbody")], and for each of its rows the stripped text of
    [row.find("td")]. *)
Variable question_page : option string -> option (option (list (option string))).

Fixpoint find_card (vacancy_name : string) (h5_tags : list (option anchor))
  : option string :=
  match h5_tags with
  | [] => None
  | h5 :: rest =>
      match h5 with
      | Some link =>
          if str_in (lower vacancy_name) (lower (anchor_text link)) then
            let href := anchor_href link in
            let full_url := "https://easyoffer.ru" +:+ py_str href in
            Some full_url
          else find_card vacancy_name rest
      | None => find_card vacancy_name rest
      end
  end.

(** [None] is Python's [None]; after a request error the result is [""]. *)
Definition get_vacancy_easyoffer (vacancy_name : string) : option string :=
  match front_page with
  | Some h5_tags => find_card vacancy_name h5_tags
  | None => Some ""%string
  end.

Fixpoint collect_questions (rows : list (option string)) (questions : list string)
  : list string :=
  match rows with
  | [] => questions
  | row :: rest =>
      match row with
      | Some question => collect_questions rest (questions ++ [question])
      | None => collect_questions rest questions
      end
  end.

Definition get_interview_questions (url : option string) : questions_value :=
  match question_page url with
  | None => QuestionsEmptyStr
  | Some None => QuestionList []
  | Some (Some rows) => QuestionList (collect_questions rows [])
  end.

End Easyoffer.

(** A card whose link text contains the wanted name, case-insensitively. *)
Definition card_matches (lower : string -> string) (vacancy_name : string)
    (h5 : option anchor) : Prop :=
  exists link, h5 = Some link
    /\ str_in (lower vacancy_name) (lower (anchor_text link)) = true.

(** ** The skill list of the sidebar ([app.py]) *)

(** The two entries of [st.session_state] that the sidebar uses. *)
Record session : Type := Session {
  session_skills : list string;
  session_skill_input : string
}.

(** What the user does in the sidebar: change the text of the skill input
    (which runs [add_skill]) or press "Clear all skills". *)
Inductive sidebar_event : Type :=
  | SkillTyped (text : string)
  | ClearPressed.

Section Sidebar.

(** [str.strip]. *)
Variable strip : string -> string.

Definition add_skill (st : session) : session :=
  let skill := strip (session_skill_input st) in
  if truthy skill && negb (bool_decide (skill ∈ session_skills st)) then
    Session (session_skills st ++ [skill]) ""
  else st.

Definition clear_skills (st : session) : session :=
  Session [] (session_skill_input st).

Definition sidebar_step (st : session) (ev : sidebar_event) : session :=
  match ev with
  | SkillTyped text => add_skill (Session (session_skills st) text)
  | ClearPressed => clear_skills st
  end.

Definition sidebar_run (events : list sidebar_event) (st : session) : session :=
  fold_left sidebar_step events st.

End Sidebar.

(** The texts entered in the skill input during a run. *)
Definition typed_texts (events : list sidebar_event) : list string :=
  omap (fun ev => match ev with
                  | SkillTyped text => Some text
                  | ClearPressed => None
                  end) events.

(** The skills are pairwise distinct, none is empty, and each is the
    stripped text of some input. *)
Definition skills_well_formed (strip : string -> string) (texts : list string)
    (st : session) : Prop :=
  NoDup (session_skills st)
  /\ (""%string ∉ session_skills st)
  /\ forall skill, skill ∈ session_skills st ->
       exists text, text ∈ texts /\ skill = strip text.

(** The state of a new session. *)
Definition session_init : session := Session [] "".

(** ** More of the sample world *)

Definition sample_search (params : search_params) : option (list (option string)) :=
  if (param_page params =? 0)%Z then Some [Some link_1; None; Some ""%string]
  else if (param_page params =? 1)%Z then None
  else if (param_page params =? 2)%Z then Some [Some link_2]
  else Some [].

Definition sample_cards : list (option anchor) :=
  [None; Some (Anchor "Python Developer" (Some "/rating/python"%string));
   Some (Anchor "Data Analyst" (Some "/rating/data_analyst"%string));
   Some (Anchor "Senior Data Analyst" None)].

Definition sample_front_page : option (list (option anchor)) := Some sample_cards.

Definition sample_question_page (url : option string)
  : option (option (list (option string))) :=
  match url with
  | Some u =>
      if String.eqb u "https://easyoffer.ru/rating/data_analyst" then
        Some (Some [Some "What is a left join?"%string; None])
      else None
  | None => None
  end.

(** Removal of leading and trailing spaces. *)
Fixpoint strip_left (s : string) : string :=
  match s with
  | String c rest => if Ascii.eqb c " " then strip_left rest else s
  | EmptyString => EmptyString
  end.

Fixpoint string_rev (s : string) : string :=
  match s with
  | EmptyString => EmptyString
  | String c rest => string_rev rest +:+ String c EmptyString
  end.

Definition sample_strip (s : string) : string :=
  string_rev (strip_left (string_rev (strip_left s))).

(** * Properties *)

(** ** The exception monad *)

Lemma py_bind_inr {A B} (a : A) (k : A -> py B) : (inr a : py A) ≫= k = k a.
Proof. reflexivity. Qed.

Lemma py_bind_inl {A B} (e : py_exn) (k : A -> py B) : (inl e : py A) ≫= k = inl e.
Proof. reflexivity. Qed.

Lemma py_bind_ret {A B} (a : A) (k : A -> py B) : (mret a : py A) ≫= k = k a.
Proof. reflexivity. Qed.

Ltac py_simpl :=
  repeat first [rewrite py_bind_ret | rewrite py_bind_inr | rewrite py_bind_inl].

(** ** Numbers *)

Lemma py_len_S {A} (x : A) (l : list A) :
  py_len (x :: l) = inject_Z (Z.pos (Pos.of_succ_nat (length l))).
Proof. unfold py_len. simpl length. by rewrite Znat.Zpos_P_of_succ_nat, <- Nat2Z.inj_succ. Qed.

Lemma py_truediv_len {A} (a : Q) (x : A) (l : list A) :
  py_truediv a (py_len (x :: l)) = inr (a / py_len (x :: l)).
Proof. rewrite py_len_S. reflexivity. Qed.

(** The double nearest to 4/5 is 0.8000000000000000444..., the smallest
    double that is not below 0.8. *)
Example py_float_four_fifths :
  py_float (4 # 5) == 3602879701896397 # 4503599627370496
  /\ 8 # 10 < py_float (4 # 5)
  /\ py_float (py_float (4 # 5)) = py_float (4 # 5).
Proof. split; [reflexivity|]. split; reflexivity. Qed.

(** No double lies between 0.8 and the double of 0.8, nor between 0.9 and the
    double of 0.9: the double just below is below the decimal. *)
Example threshold_doubles :
  double_value (SFpred 53 1024 (to_double (8 # 10))) < 8 # 10
  /\ 8 # 10 < py_float (8 # 10)
  /\ double_value (SFpred 53 1024 (to_double (9 # 10))) < 9 # 10
  /\ 9 # 10 < py_float (9 # 10).
Proof. repeat split. Qed.

(** The two summations of the built-in [sum] give the same score on the
    precisions 0.4, 1 and 1. On eighty-one precisions 0.8 they give two
    scores, 0.7999999999999987 and 0.7999999999999999, both below 0.8. *)
Example sum_compensated_scores :
  py_float_truediv (py_sum_compensated [py_float (2 # 5); 1; 1]) 3
  = py_float_truediv (py_sum [py_float (2 # 5); 1; 1]) 3
  /\ exists a b,
       py_float_truediv (py_sum (replicate 81 (py_float (4 # 5)))) 81 = inr a
       /\ py_float_truediv (py_sum_compensated (replicate 81 (py_float (4 # 5)))) 81
          = inr b
       /\ a == 3602879701896391 # 4503599627370496
       /\ b == 7205759403792793 # 9007199254740992
       /\ a < 8 # 10 /\ b < 8 # 10.
Proof.
  split; [vm_compute; reflexivity|].
  eexists _, _. split; [vm_compute; reflexivity|]. split; [vm_compute; reflexivity|].
  repeat split.
Qed.

(** Scenario C in double precision: the precisions 0.9, 0.85 and 0.95 have the
    score 0.9, which is [>= 0.8]. *)
Example score_scenario_C :
  py_float_truediv (py_sum [py_float (9 # 10); py_float (85 # 100); py_float (95 # 100)]) 3
  = inr (py_float (9 # 10)).
Proof. vm_compute. reflexivity. Qed.

Lemma py_float_truediv_len {A} (a : Q) (x : A) (l : list A) :
  py_float_truediv a (py_len (x :: l))
  = inr (double_value (SFdiv 53 1024 (to_double a) (to_double (py_len (x :: l))))).
Proof. unfold py_float_truediv. rewrite py_len_S. reflexivity. Qed.

Lemma nat_ratio_pos (n : nat) : (0 < n)%nat -> Z.pos (Pos.of_nat n) = Z.of_nat n.
Proof. intros Hn. destruct n; [lia|]. rewrite <- Pos.of_nat_succ. lia. Qed.

Lemma nat_ratio (k n : nat) :
  (0 < n)%nat ->
  inject_Z (Z.of_nat k) / inject_Z (Z.of_nat n) == Z.of_nat k # Pos.of_nat n.
Proof.
  intros Hn. rewrite <- (nat_ratio_pos n Hn). symmetry. apply Qmake_Qdiv.
Qed.

(** ** Sets of skills *)

Lemma size_union_le (X Y : gset string) : (size (X ∪ Y) <= size X + size Y)%nat.
Proof.
  rewrite size_union_alt.
  assert (size (Y ∖ X) <= size Y)%nat by (apply subseteq_size; set_solver). lia.
Qed.

Lemma size_list_to_set_le (l : list string) :
  (size (list_to_set l : gset string) <= length l)%nat.
Proof.
  induction l as [|x l IH].
  - by rewrite list_to_set_nil, size_empty.
  - rewrite list_to_set_cons, length_cons.
    etrans; [apply size_union_le|]. rewrite size_singleton. lia.
Qed.

Lemma size_list_to_set_lt (l : list string) :
  ~ NoDup l -> (size (list_to_set l : gset string) < length l)%nat.
Proof.
  induction l as [|x l IH]; intros Hdup.
  - destruct Hdup. constructor.
  - rewrite list_to_set_cons, length_cons.
    destruct (decide (x ∈ l)) as [Hin|Hnotin].
    + replace ({[x]} ∪ list_to_set l : gset string) with (list_to_set l : gset string)
        by set_solver.
      pose proof (size_list_to_set_le l). lia.
    + assert (~ NoDup l) as Hl by (intros Hl; apply Hdup; by constructor).
      apply IH in Hl.
      pose proof (size_union_le ({[x]} : gset string) (list_to_set l)) as Hle.
      rewrite size_singleton in Hle. lia.
Qed.

Lemma size_nonzero_iff (X : gset string) : size X <> 0%nat <-> X ≠ ∅.
Proof. rewrite size_non_empty_iff. by unfold_leibniz. Qed.

Lemma size_inter_le (U R : list string) :
  (size ((list_to_set U : gset string) ∩ list_to_set R)
   <= size (list_to_set R : gset string))%nat.
Proof. apply subseteq_size. set_solver. Qed.

Lemma size_inter_full (U R : list string) :
  size ((list_to_set U : gset string) ∩ list_to_set R) = size (list_to_set R : gset string)
  <-> (list_to_set R : gset string) ⊆ list_to_set U.
Proof.
  split.
  - intros Hsize.
    assert ((list_to_set U : gset string) ∩ list_to_set R = list_to_set R) as Heq.
    { apply set_eq. intros x. split; [set_solver|]. intros Hx.
      destruct (decide (x ∈ (list_to_set U : gset string) ∩ list_to_set R)) as [|Hn]; [done|].
      exfalso.
      assert ((list_to_set U : gset string) ∩ list_to_set R ⊂ list_to_set R) as Hsub
        by set_solver.
      apply subset_size in Hsub. lia. }
    set_solver.
  - intros Hsub. f_equal. set_solver.
Qed.

(** ** [calculate_precision] *)

Lemma calculate_precision_nil (U : list string) : calculate_precision U [] = inr 0.
Proof. reflexivity. Qed.

Lemma calculate_precision_cons (U : list string) (x : string) (R : list string) :
  calculate_precision U (x :: R)
  = inr (inject_Z (Z.of_nat (size ((list_to_set U : gset string) ∩ list_to_set (x :: R))))
         / py_len (x :: R)).
Proof. unfold calculate_precision. simpl Nat.eqb. cbv iota. apply py_truediv_len. Qed.

(** Scenario A: skills {python, sql} against {python, sql, docker}. *)
Example precision_scenario_A :
  calculate_precision ["python"; "sql"]%string ["python"; "sql"; "docker"]%string
  = inr (2 # 3).
Proof. vm_compute. reflexivity. Qed.

(** Scenario B: nothing is required. *)
Example precision_scenario_B :
  calculate_precision ["python"]%string [] = inr 0.
Proof. reflexivity. Qed.

Lemma calculate_precision_total (U R : list string) :
  exists q, calculate_precision U R = inr q.
Proof.
  destruct R as [|x R]; [exists 0; reflexivity|].
  eexists. apply calculate_precision_cons.
Qed.

(** Comparisons of two ratios of natural numbers reduce to integer
    arithmetic. *)
Ltac ratio_arith :=
  unfold Qle, Qlt, Qeq; simpl Qnum; simpl Qden;
  rewrite ?nat_ratio_pos by lia; nia.

Lemma ratio_eq_1 (k n : nat) :
  (0 < n)%nat -> (Z.of_nat k # Pos.of_nat n == 1 <-> k = n).
Proof. intros Hn. split; [|intros ->]; ratio_arith. Qed.

Lemma ratio_bounds (k n : nat) :
  (0 < n)%nat -> (k <= n)%nat ->
  0 <= Z.of_nat k # Pos.of_nat n /\ Z.of_nat k # Pos.of_nat n <= 1.
Proof. intros Hn Hk. split; ratio_arith. Qed.

Lemma ratio_shrink (k m n : nat) :
  (0 < m)%nat -> (m < n)%nat ->
  Z.of_nat k # Pos.of_nat n <= Z.of_nat k # Pos.of_nat m /\
  (Z.of_nat k # Pos.of_nat n < Z.of_nat k # Pos.of_nat m <-> k <> 0%nat).
Proof.
  intros Hm Hn. split; [ratio_arith|]. split.
  - intros Hlt ->. revert Hlt. ratio_arith.
  - intros Hk. ratio_arith.
Qed.

Lemma precision_ratio (U : list string) (x : string) (R : list string) :
  inject_Z (Z.of_nat (size ((list_to_set U : gset string) ∩ list_to_set (x :: R))))
  / py_len (x :: R)
  == Z.of_nat (size ((list_to_set U : gset string) ∩ list_to_set (x :: R)))
     # Pos.of_nat (length (x :: R)).
Proof. unfold py_len. apply nat_ratio. simpl. lia. Qed.

Lemma size_list_to_set_pos (x : string) (R : list string) :
  (0 < size (list_to_set (x :: R) : gset string))%nat.
Proof.
  destruct (size (list_to_set (x :: R) : gset string)) eqn:Hsz; [|lia].
  apply size_empty_inv in Hsz. set_solver.
Qed.

Lemma set_based_ratio_eq (U : list string) (x : string) (R : list string) :
  set_based_ratio U (x :: R)
  == Z.of_nat (size ((list_to_set U : gset string) ∩ list_to_set (x :: R)))
     # Pos.of_nat (size (list_to_set (x :: R) : gset string)).
Proof. unfold set_based_ratio. apply nat_ratio, size_list_to_set_pos. Qed.

(** C1: for every applicant skill list [U] and required skill set [R] (a
    duplicate-free list), the precision calculator returns normally; it
    returns 0 when [R] is empty, and otherwise |U ∩ R| / |R|. For any
    non-empty list [R] the returned value is the number of distinct common
    skills divided by the length of [R]. *)
Theorem calculate_precision_spec (U R : list string) :
  exists q, calculate_precision U R = inr q /\
    (R = [] -> q = 0) /\
    (R <> [] ->
       q == inject_Z (Z.of_nat (size ((list_to_set U : gset string) ∩ list_to_set R)))
            / py_len R) /\
    (R <> [] -> NoDup R -> q == set_based_ratio U R).
Proof.
  destruct R as [|x R].
  - exists 0. repeat split; try done.
  - eexists. split; [apply calculate_precision_cons|].
    split; [done|]. split; [reflexivity|].
    intros _ Hnodup. unfold set_based_ratio, py_len.
    by rewrite (size_list_to_set (x :: R) Hnodup).
Qed.

(** C8: for a required skill set [R] (a duplicate-free list), the precision
    equals 1 exactly when [R] is non-empty and every required skill is an
    applicant skill. *)
Theorem precision_one_iff (U R : list string) :
  NoDup R ->
  returns_number (calculate_precision U R) 1
  <-> ((list_to_set R : gset string) ⊆ list_to_set U /\ R <> []).
Proof.
  intros Hnodup. destruct R as [|x R].
  - split.
    + intros (r & Hr & H1). rewrite calculate_precision_nil in Hr.
      injection Hr as <-. discriminate H1.
    + intros [_ HR]. done.
  - rewrite <- size_inter_full, (size_list_to_set (x :: R) Hnodup).
    assert (0 < length (x :: R))%nat as Hpos by (simpl; lia).
    split.
    + intros (r & Hr & H1). rewrite calculate_precision_cons in Hr.
      injection Hr as <-. setoid_rewrite precision_ratio in H1.
      split; [|done]. by apply ratio_eq_1 in H1.
    + intros [Hsize _]. eexists. split; [apply calculate_precision_cons|].
      setoid_rewrite precision_ratio. by apply ratio_eq_1.
Qed.

(** C9 (amended): when the required-skills list contains duplicates, the
    result lies in [0, 1] and is at most the set-based ratio
    |U ∩ set(R)| / |set(R)|; it is strictly smaller exactly when the applicant
    has at least one of the required skills (otherwise both are 0). *)
Theorem precision_with_duplicates (U R : list string) :
  ~ NoDup R ->
  exists q, calculate_precision U R = inr q /\
    0 <= q /\ q <= 1 /\ q <= set_based_ratio U R /\
    (q < set_based_ratio U R
     <-> (list_to_set U : gset string) ∩ list_to_set R ≠ ∅).
Proof.
  intros Hdup. destruct R as [|x R]; [destruct Hdup; constructor|].
  pose proof (size_list_to_set_lt _ Hdup) as Hlt.
  pose proof (size_inter_le U (x :: R)) as Hle.
  pose proof (size_list_to_set_pos x R) as Hpos.
  eexists. split; [apply calculate_precision_cons|].
  setoid_rewrite precision_ratio. setoid_rewrite set_based_ratio_eq.
  rewrite <- size_nonzero_iff.
  pose proof (ratio_bounds (size ((list_to_set U : gset string) ∩ list_to_set (x :: R)))
                (length (x :: R)) ltac:(lia) ltac:(lia)) as [H0 H1].
  pose proof (ratio_shrink (size ((list_to_set U : gset string) ∩ list_to_set (x :: R)))
                _ _ Hpos Hlt) as [Hle' Hiff].
  done.
Qed.

(** ** [recommend_courses] *)

Lemma recommend_courses_loop_map (skills : list string) (acc : list (string * string)) :
  recommend_courses_loop skills acc
  = acc ++ map (fun skill => (skill, coursera_search +:+ skill)) skills.
Proof.
  revert acc. induction skills as [|skill rest IH]; intros acc; simpl.
  - by rewrite app_nil_r.
  - rewrite IH. by rewrite <- app_assoc.
Qed.

(** C10: [recommend_courses] returns one (skill, url) pair per input element,
    in input order; each url is the search prefix followed by the skill text
    itself, unchanged. *)
Theorem recommend_courses_spec (skills : list string) :
  recommend_courses skills
  = map (fun skill => (skill, "https://www.coursera.org/search?query=" +:+ skill)) skills
  /\ length (recommend_courses skills) = length skills
  /\ forall i skill, skills !! i = Some skill ->
       recommend_courses skills !! i
       = Some (skill, "https://www.coursera.org/search?query=" +:+ skill).
Proof.
  unfold recommend_courses. rewrite recommend_courses_loop_map, app_nil_l.
  split; [done|]. split; [by rewrite length_map|].
  intros i skill Hi. by rewrite list_lookup_fmap, Hi.
Qed.

(** ** [get_top_vacancies] *)

Section Sorting.
Context {A : Type} (key : A -> Q).

Lemma insert_reverse_perm (x : A) (l : list A) :
  insert_reverse key x l ≡ₚ x :: l.
Proof.
  induction l as [|y ys IH]; simpl; [done|].
  destruct (Qle_bool (key y) (key x)); [done|].
  rewrite IH. apply Permutation_swap.
Qed.

Lemma sorted_reverse_perm (l : list A) : sorted_reverse key l ≡ₚ l.
Proof.
  induction l as [|x xs IH]; simpl; [done|].
  by rewrite insert_reverse_perm, IH.
Qed.

Lemma insert_reverse_sorted (x : A) (l : list A) :
  sorted_descending key l -> sorted_descending key (insert_reverse key x l).
Proof.
  unfold sorted_descending.
  induction 1 as [|y ys Hys IH Hy]; simpl.
  - repeat constructor.
  - destruct (Qle_bool (key y) (key x)) eqn:Hle.
    + apply Qle_bool_iff in Hle.
      constructor; [by constructor|].
      constructor; [done|].
      eapply Forall_impl; [exact Hy|]. intros z Hz. simpl in Hz.
      by apply Qle_trans with (key y).
    + constructor; [done|].
      rewrite (insert_reverse_perm x ys). constructor; [|done].
      destruct (Qlt_le_dec (key y) (key x)) as [Hlt|Hge]; [|done].
      apply Qlt_le_weak, Qle_bool_iff in Hlt. congruence.
Qed.

Lemma sorted_reverse_sorted (l : list A) :
  sorted_descending key (sorted_reverse key l).
Proof.
  induction l as [|x xs IH]; simpl; [constructor|].
  by apply insert_reverse_sorted.
Qed.

Lemma insert_reverse_filter (q : Q) (x : A) (l : list A) :
  List.filter (fun a => Qeq_bool (key a) q) (insert_reverse key x l)
  = List.filter (fun a => Qeq_bool (key a) q) (x :: l).
Proof.
  induction l as [|y ys IH]; [done|].
  cbn [insert_reverse]. destruct (Qle_bool (key y) (key x)) eqn:Hle; [done|].
  cbn [List.filter] in *. rewrite IH.
  destruct (Qeq_bool (key y) q) eqn:Hy, (Qeq_bool (key x) q) eqn:Hx; try done.
  apply Qeq_bool_iff in Hy, Hx.
  assert (key y <= key x) as Hyx by (rewrite Hy, Hx; apply Qle_refl).
  apply Qle_bool_iff in Hyx. congruence.
Qed.

Lemma sorted_reverse_ties (l : list A) : ties_in_order key l (sorted_reverse key l).
Proof.
  intros q. induction l as [|x xs IH]; [done|].
  cbn [sorted_reverse]. rewrite insert_reverse_filter.
  cbn [List.filter]. by rewrite IH.
Qed.

Lemma sorted_reverse_stable (l : list A) :
  stable_sort_descending key l (sorted_reverse key l).
Proof.
  split; [apply sorted_reverse_perm|].
  split; [apply sorted_reverse_sorted|apply sorted_reverse_ties].
Qed.

(** A stable descending sort is determined by its input. *)
Lemma sorted_ties_unique (s1 s2 : list A) :
  s1 ≡ₚ s2 -> sorted_descending key s1 -> sorted_descending key s2 ->
  ties_in_order key s2 s1 -> s1 = s2.
Proof.
  revert s2. induction s1 as [|h1 t1 IH]; intros s2 Hperm Hs1 Hs2 Hties.
  - by apply Permutation_nil_l in Hperm.
  - destruct s2 as [|h2 t2]; [by apply Permutation_nil_r in Hperm|].
    apply StronglySorted_inv in Hs1 as [Ht1 Hh1].
    apply StronglySorted_inv in Hs2 as [Ht2 Hh2].
    rewrite Forall_forall in Hh1, Hh2.
    assert (key h2 <= key h1) as H21.
    { assert (h2 ∈ h1 :: t1) as Hin by (rewrite Hperm; left).
      apply elem_of_cons in Hin as [->|Hin]; [apply Qle_refl|].
      by apply Hh1. }
    assert (key h1 <= key h2) as H12.
    { assert (h1 ∈ h2 :: t2) as Hin by (rewrite <- Hperm; left).
      apply elem_of_cons in Hin as [->|Hin]; [apply Qle_refl|].
      by apply Hh2. }
    assert (key h2 == key h1) as Heq by (by apply Qle_antisym).
    assert (h1 = h2) as ->.
    { specialize (Hties (key h1)). cbn [List.filter] in Hties.
      rewrite (proj2 (Qeq_bool_iff _ _) Heq) in Hties.
      rewrite (proj2 (Qeq_bool_iff _ _) (Qeq_refl (key h1))) in Hties.
      congruence. }
    f_equal. apply IH; try done.
    + by apply Permutation_cons_inv in Hperm.
    + intros q. specialize (Hties q). cbn [List.filter] in Hties.
      destruct (Qeq_bool (key h2) q); congruence.
Qed.

Lemma stable_sort_descending_unique (l s1 s2 : list A) :
  stable_sort_descending key l s1 -> stable_sort_descending key l s2 -> s1 = s2.
Proof.
  intros (Hp1 & Hs1 & Ht1) (Hp2 & Hs2 & Ht2).
  apply sorted_ties_unique; try done.
  - by rewrite Hp1, Hp2.
  - intros q. by rewrite Ht1, Ht2.
Qed.

End Sorting.

Lemma slice_to_nonneg {A} (l : list A) (n : Z) :
  (0 <= n)%Z -> slice_to l n = take (Z.to_nat n) l.
Proof. intros Hn. unfold slice_to. by rewrite (proj2 (Z.leb_le 0 n) Hn). Qed.

(** For a negative [n] the slice drops the last [-n] elements instead. *)
Lemma get_top_vacancies_negative_slice (v : list vacancy) (n : Z) :
  (n < 0)%Z ->
  get_top_vacancies v (Some n)
  = take (length v - Z.to_nat (- n)) (sorted_reverse similarity v).
Proof.
  intros Hn.
  change (get_top_vacancies v (Some n)) with (slice_to (sorted_reverse similarity v) n).
  unfold slice_to. rewrite (proj2 (Z.leb_gt 0 n) Hn).
  rewrite (Permutation_length (sorted_reverse_perm similarity v)).
  f_equal. lia.
Qed.

(** Scenario C: precisions 0.9, 0.85 and 0.95 are ranked 0.95, 0.9, 0.85. *)
Example top_vacancies_scenario_C :
  map similarity
    (get_top_vacancies
       [Vacancy "x" "" "" [] (9 # 10); Vacancy "y" "" "" [] (85 # 100);
        Vacancy "z" "" "" [] (95 # 100)] None)
  = [95 # 100; 9 # 10; 85 # 100].
Proof. reflexivity. Qed.

(** C7 (amended): for every vacancy sequence [v] and integer [n >= 0],
    [get_top_vacancies v n] is [v] stably sorted by precision descending (ties
    keep their original relative order) truncated to its first [n] elements;
    for [n = 0] the result is empty, and [n] defaults to 3. *)
Theorem get_top_vacancies_spec (v : list vacancy) (n : Z) :
  (0 <= n)%Z ->
  exists s, stable_sort_descending similarity v s /\
    (forall s', stable_sort_descending similarity v s' -> s' = s) /\
    get_top_vacancies v (Some n) = take (Z.to_nat n) s /\
    (n = 0%Z -> get_top_vacancies v (Some n) = []) /\
    get_top_vacancies v None = get_top_vacancies v (Some 3%Z).
Proof.
  intros Hn. exists (sorted_reverse similarity v).
  split; [apply sorted_reverse_stable|].
  split.
  { intros s' Hs'. eapply stable_sort_descending_unique; [exact Hs'|].
    apply sorted_reverse_stable. }
  change (get_top_vacancies v (Some n)) with (slice_to (sorted_reverse similarity v) n).
  rewrite slice_to_nonneg by done.
  split; [done|]. split; [|done].
  intros ->. done.
Qed.

(** ** [quote_plus] *)

Ltac each_byte c := destruct c as [[] [] [] [] [] [] [] []].

Lemma replace_space_plus_app (s t : string) :
  replace_space_plus (s +:+ t) = replace_space_plus s +:+ replace_space_plus t.
Proof. induction s as [|c s IH]; simpl; [done|]. by rewrite IH. Qed.

Lemma replace_quote_byte (c : ascii) :
  replace_space_plus (quote_byte " " c) = encode_plus c.
Proof. each_byte c; reflexivity. Qed.

Lemma replace_quote (s : string) :
  replace_space_plus (quote " " s) = encode_string s.
Proof.
  induction s as [|c s IH]; simpl; [done|].
  by rewrite replace_space_plus_app, replace_quote_byte, IH.
Qed.

Lemma quote_no_space (s : string) :
  string_mem " " s = false -> quote "" s = encode_string s.
Proof.
  induction s as [|c s IH]; [done|].
  cbn [string_mem quote encode_string].
  intros Hmem. apply orb_false_iff in Hmem as [Hc Hs].
  rewrite IH by done. unfold encode_plus.
  rewrite Ascii.eqb_sym in Hc. by rewrite Hc.
Qed.

Lemma quote_plus_encode (s : string) : quote_plus s = encode_string s.
Proof.
  unfold quote_plus. destruct (string_mem " " s) eqn:Hmem; simpl.
  - apply replace_quote.
  - by apply quote_no_space.
Qed.

Lemma unquote_encode_byte (c : ascii) (rest : string) :
  unquote_plus (encode_plus c +:+ rest) = String c (unquote_plus rest).
Proof. each_byte c; reflexivity. Qed.

Lemma all_chars_app (p : ascii -> bool) (s t : string) :
  all_chars p (s +:+ t) = all_chars p s && all_chars p t.
Proof. induction s as [|c s IH]; simpl; [done|]. by rewrite IH, andb_assoc. Qed.

Lemma encode_plus_chars (c : ascii) : all_chars query_char (encode_plus c) = true.
Proof. each_byte c; reflexivity. Qed.

(** Decoding the encoded title gives the title back. *)
Lemma unquote_quote_plus (s : string) : unquote_plus (quote_plus s) = s.
Proof.
  rewrite quote_plus_encode. induction s as [|c s IH]; simpl; [done|].
  by rewrite unquote_encode_byte, IH.
Qed.

(** The encoded title consists of unreserved characters, [%] and [+]. *)
Lemma quote_plus_chars (s : string) : all_chars query_char (quote_plus s) = true.
Proof.
  rewrite quote_plus_encode. induction s as [|c s IH]; simpl; [done|].
  by rewrite all_chars_app, encode_plus_chars, IH.
Qed.

(** ** The recommendation step *)

Section RecommendationProperties.

Context (set_order : gset string -> list string).

(** [list(s)] enumerates the elements of [s], each once, in some order. *)
Hypothesis set_order_perm : forall X : gset string, set_order X ≡ₚ elements X.

Lemma list_to_set_order (X : gset string) : list_to_set (set_order X) = X.
Proof. rewrite set_order_perm. apply list_to_set_elements_L. Qed.

Lemma length_set_order (X : gset string) : length (set_order X) = size X.
Proof. by rewrite set_order_perm. Qed.

Lemma collect_missing_union (applicant_skills : list string) (threshold : Q)
    (vacancies : list vacancy) (acc : gset string) :
  collect_missing set_order applicant_skills threshold vacancies acc
  = acc ∪ missing_union applicant_skills vacancies threshold.
Proof.
  revert acc. unfold missing_union.
  induction vacancies as [|v rest IH]; intros acc.
  - cbn. set_solver.
  - cbn [collect_missing List.filter].
    destruct (Qlt_bool (similarity v) threshold).
    + rewrite IH. unfold get_missing_skills. rewrite list_to_set_order.
      cbn [map union_list]. set_solver.
    + apply IH.
Qed.

(** C5: let [U] be the union of the missing-skill sets of the vacancies
    whose precision is below the threshold. If [|U| > 3] the outcome is a
    broad search link whose query is the encoded position title; if [U] is
    non-empty with [|U| <= 3] the outcome is a course list with exactly
    [|U|] entries, one for each distinct missing skill. *)
Theorem generate_recommendations_spec (vacancy_title : string)
    (applicant_skills : list string) (vacancies : list vacancy)
    (threshold : option Q) :
  let U := missing_union applicant_skills vacancies (default (8 # 10) threshold) in
  let outcome :=
    generate_recommendations set_order vacancy_title applicant_skills vacancies
      threshold in
  ((3 < size U)%nat ->
     exists query,
       outcome = BroadSearchLink ("https://www.coursera.org/search?query=" +:+ query)
       /\ query = quote_plus vacancy_title
       /\ unquote_plus query = vacancy_title
       /\ all_chars query_char query = true)
  /\ ((0 < size U <= 3)%nat ->
     exists courses,
       outcome = CourseList courses
       /\ length courses = size U
       /\ NoDup (map fst courses)
       /\ (forall skill, skill ∈ map fst courses <-> skill ∈ U)
       /\ (forall skill url, (skill, url) ∈ courses ->
             url = "https://www.coursera.org/search?query=" +:+ skill)).
Proof.
  intros U outcome. subst outcome. unfold generate_recommendations.
  rewrite collect_missing_union, (left_id_L ∅ (∪)).
  fold threshold_default. change (default (8 # 10) threshold) with
    (default threshold_default threshold) in U. fold U.
  split.
  - intros Hbig. apply Nat.ltb_lt in Hbig. rewrite Hbig.
    exists (quote_plus vacancy_title).
    split; [done|]. split; [done|].
    split; [apply unquote_quote_plus|apply quote_plus_chars].
  - intros [Hpos Hsmall].
    destruct (3 <? size U)%nat eqn:Hbig; [apply Nat.ltb_lt in Hbig; lia|].
    destruct (size U =? 0)%nat eqn:Hz; [apply Nat.eqb_eq in Hz; lia|].
    cbn [negb]. eexists. split; [reflexivity|].
    unfold recommend_courses. rewrite recommend_courses_loop_map, app_nil_l.
    rewrite length_map, length_set_order.
    rewrite map_map. cbn [fst]. rewrite map_id.
    split; [done|]. split; [rewrite set_order_perm; apply NoDup_elements|].
    split.
    + intros skill. by rewrite set_order_perm, elem_of_elements.
    + intros skill url Hin. apply list_elem_of_fmap in Hin as (s & Heq & _).
      by injection Heq as -> ->.
Qed.

(** An empty missing-skill union gives no recommendation at all. *)
Lemma generate_recommendations_none (vacancy_title : string)
    (applicant_skills : list string) (vacancies : list vacancy)
    (threshold : option Q) :
  missing_union applicant_skills vacancies (default threshold_default threshold) = ∅ ->
  generate_recommendations set_order vacancy_title applicant_skills vacancies threshold
  = NoRecommendation.
Proof.
  intros Hempty. unfold generate_recommendations.
  rewrite collect_missing_union, (left_id_L ∅ (∪)), Hempty.
  by rewrite size_empty.
Qed.

End RecommendationProperties.

(** ** The fetch loop *)

Lemma calculate_precision_value (U R : list string) :
  calculate_precision U R = inr (precision_value U R).
Proof.
  unfold precision_value.
  by destruct (calculate_precision_total U R) as [q ->].
Qed.

Lemma calculate_precision_double_value (U R : list string) :
  calculate_precision_double U R = inr (py_float (precision_value U R)).
Proof.
  unfold calculate_precision_double.
  by rewrite calculate_precision_value, py_bind_inr.
Qed.

Section FetchLoop.

Context (fetch_json : string -> option posting) (lower : string -> string).

Lemma resolved_records_cons (applicant_skills : list string) (link : string)
    (rest : list string) (data : posting) :
  fetch_json link = Some data ->
  resolved_records fetch_json lower applicant_skills (link :: rest)
  = record_of lower applicant_skills data
    :: resolved_records fetch_json lower applicant_skills rest.
Proof. intros Hdata. unfold resolved_records. simpl. by rewrite Hdata. Qed.

Lemma fetch_loop_ok (applicant_skills : list string) (links : list string)
    (precisions : list Q) (vacancies : list vacancy) :
  Forall (fun link => is_Some (fetch_json link)) links ->
  fetch_loop fetch_json lower applicant_skills links precisions vacancies
  = inr (precisions
           ++ map similarity (resolved_records fetch_json lower applicant_skills links),
         vacancies ++ resolved_records fetch_json lower applicant_skills links).
Proof.
  intros Hall. revert precisions vacancies.
  induction Hall as [|link rest [data Hdata] _ IH]; intros precisions vacancies.
  - cbn. by rewrite !app_nil_r.
  - rewrite (resolved_records_cons _ _ _ _ Hdata).
    cbn [fetch_loop]. unfold fetch. rewrite Hdata.
    py_simpl. rewrite calculate_precision_double_value. py_simpl.
    rewrite IH. cbn [map record_of similarity]. by rewrite <- !app_assoc.
Qed.

Lemma fetch_loop_fail (applicant_skills : list string) (links : list string)
    (precisions : list Q) (vacancies : list vacancy) :
  Exists (fun link => fetch_json link = None) links ->
  fetch_loop fetch_json lower applicant_skills links precisions vacancies
  = inl RequestException.
Proof.
  intros Hex. revert precisions vacancies.
  induction Hex as [link rest Hnone|link rest _ IH]; intros precisions vacancies.
  - cbn [fetch_loop]. unfold fetch. by rewrite Hnone.
  - cbn [fetch_loop]. unfold fetch. destruct (fetch_json link) as [data|]; [|done].
    py_simpl. rewrite calculate_precision_double_value. py_simpl. apply IH.
Qed.

Lemma links_resolve_or_not (links : list string) :
  Forall (fun link => is_Some (fetch_json link)) links
  \/ Exists (fun link => fetch_json link = None) links.
Proof.
  induction links as [|link rest [IH|IH]].
  - left. constructor.
  - destruct (fetch_json link) as [data|] eqn:Hlink.
    + left. constructor; [by rewrite Hlink|done].
    + right. by left.
  - right. by right.
Qed.



End FetchLoop.

(** ** The readiness decision *)

Section AnalysisProperties.

Context (fetch_json : string -> option posting) (lower : string -> string)
        (interview_questions : string -> questions_value)
        (set_order : gset string -> list string).


(** C3 (amended): the fetch stage is all or nothing. When every reference
    resolves it returns one record per reference, in input order; when some
    reference fails with a request error, the loop stops with that error and
    the whole analysis returns [None], whatever the other references
    give. *)
Theorem fetch_all_or_nothing (vacancy_title : string) (applicant_skills : list string)
    (links : list string) (threshold_ready : option Q) :
  (Forall (fun link => is_Some (fetch_json link)) links ->
     let records := resolved_records fetch_json lower (map lower applicant_skills) links in
     fetch_loop fetch_json lower (map lower applicant_skills) links [] []
     = inr (map similarity records, records)
     /\ length records = length links
     /\ forall i link, links !! i = Some link ->
          exists data, fetch_json link = Some data
            /\ records !! i = Some (record_of lower (map lower applicant_skills) data))
  /\ (Exists (fun link => fetch_json link = None) links ->
     fetch_loop fetch_json lower (map lower applicant_skills) links [] []
     = inl RequestException
     /\ vacancy_description_and_applicant_skills fetch_json lower interview_questions
          set_order vacancy_title applicant_skills links threshold_ready
        = inr None).
Proof.
  split.
  - intros Hall records. split; [by rewrite (fetch_loop_ok _ _ _ _ _ _ Hall)|].
    subst records. split.
    + clear -Hall. induction Hall as [|link rest [data Hdata] _ IH]; [done|].
      rewrite (resolved_records_cons _ _ _ _ _ _ Hdata). cbn. by rewrite IH.
    + clear -Hall. induction Hall as [|link0 rest [data0 Hdata0] _ IH]; [done|].
      intros i link Hi. rewrite (resolved_records_cons _ _ _ _ _ _ Hdata0).
      destruct i as [|i]; cbn in Hi |- *.
      * injection Hi as <-. by exists data0.
      * by apply IH.
  - intros Hex. split; [by apply fetch_loop_fail|].
    unfold vacancy_description_and_applicant_skills, analysis_body.
    by rewrite (fetch_loop_fail _ _ _ _ _ _ Hex).
Qed.

(** C4: zero usable vacancy records arise in two ways. With no posting
    reference at all, the analysis computes the mean of an empty list: the
    division raises [ZeroDivisionError], which the
    [except requests.RequestException] clause does not catch, so the exception
    leaves the function. With references that all fail, the first request
    error makes the function return [None]. *)
Theorem no_usable_records (vacancy_title : string) (applicant_skills : list string)
    (links : list string) (threshold_ready : option Q) :
  resolved_records fetch_json lower (map lower applicant_skills) links = [] ->
  (links = [] /\
   vacancy_description_and_applicant_skills fetch_json lower interview_questions
     set_order vacancy_title applicant_skills links threshold_ready
   = inl ZeroDivisionError)
  \/ (links <> [] /\
      vacancy_description_and_applicant_skills fetch_json lower interview_questions
        set_order vacancy_title applicant_skills links threshold_ready
      = inr None).
Proof.
  intros Hnone. destruct links as [|link rest].
  - left. split; reflexivity.
  - right. split; [done|].
  assert (fetch_json link = None) as Hlink.
  { destruct (fetch_json link) as [data|] eqn:Hdata; [|done].
    by rewrite (resolved_records_cons _ _ _ _ _ _ Hdata) in Hnone. }
  unfold vacancy_description_and_applicant_skills, analysis_body.
  rewrite (fetch_loop_fail fetch_json lower _ (link :: rest) [] []); [done|].
  by left.
Qed.

End AnalysisProperties.

(** ** The threshold handed to the recommendation step *)

(** C6: with [threshold_ready = 0.9] and a single vacancy of precision 5/6
    (as a double, 0.8333333333333334) the
    analysis is not ready, yet the recommendation step runs with its own
    default threshold 0.8: the vacancy is not below it and no recommendation is
    produced, whereas the threshold 0.9 of the readiness test gives a course
    for the missing skill. *)
Theorem threshold_not_forwarded :
  exists r,
    sample_analysis [link_1] (Some (9 # 10)) = inr (Some r)
    /\ similarity_score r == py_float (5 # 6)
    /\ similarity_score r == 7505999378950827 # 9007199254740992
    /\ not_ready_branch r
    /\ recommendations r
       = Some (generate_recommendations elements "Data Analyst"
                 (map ascii_lower sample_skills) (sample_records [link_1])
                 (Some (8 # 10)))
    /\ recommendations r = Some NoRecommendation
    /\ generate_recommendations elements "Data Analyst"
         (map ascii_lower sample_skills) (sample_records [link_1]) (Some (9 # 10))
       = CourseList [("aws", "https://www.coursera.org/search?query=aws")]%string.
Proof.
  eexists. split; [vm_compute; reflexivity|].
  split; [reflexivity|]. split; [reflexivity|].
  split; [by repeat split; try eexists|].
  split; [vm_compute; reflexivity|].
  split; [reflexivity|].
  vm_compute. reflexivity.
Qed.

(** ** Counterexamples *)


(** C9 as stated fails when the applicant has none of the required skills:
    the list-based result and the set-based ratio are both 0. *)
Lemma precision_with_duplicates_not_strict :
  ~ NoDup ["sql"; "sql"]%string
  /\ exists q,
       calculate_precision ["python"]%string ["sql"; "sql"]%string = inr q
       /\ q == 0
       /\ set_based_ratio ["python"]%string ["sql"; "sql"]%string == 0
       /\ ~ (q < set_based_ratio ["python"]%string ["sql"; "sql"]%string).
Proof.
  split.
  - intros Hnodup. apply NoDup_cons in Hnodup as [Hnotin _].
    apply Hnotin. left.
  - eexists. split; [vm_compute; reflexivity|].
    split; [reflexivity|]. split; [reflexivity|].
    vm_compute. discriminate.
Qed.

(** C7 as stated fails for a negative [n]: the slice [[:-1]] drops the last
    element of the sorted list instead of giving the empty list. *)
Lemma get_top_vacancies_negative :
  get_top_vacancies sample_vacancies (Some (-1)%Z)
  = [Vacancy "third" "" "" [] (95 # 100); Vacancy "first" "" "" [] (1 # 2)]
  /\ get_top_vacancies sample_vacancies (Some (-1)%Z) <> [].
Proof. split; [reflexivity|discriminate]. Qed.

(** C3 as stated fails: with one reference that resolves and one that does
    not, the fetch loop does not return the record of the first; it stops with
    the request error and the analysis returns [None]. *)
Lemma failed_reference_aborts :
  sample_records [link_1; link_gone] <> []
  /\ fetch_loop sample_fetch ascii_lower (map ascii_lower sample_skills)
       [link_1; link_gone] [] []
     <> inr (map similarity (sample_records [link_1; link_gone]),
             sample_records [link_1; link_gone])
  /\ sample_analysis [link_1; link_gone] None = inr None.
Proof.
  split; [vm_compute; discriminate|].
  split; [vm_compute; discriminate|].
  vm_compute. reflexivity.
Qed.

(** ** Instances of the theorems in the sample world *)

Lemma sample_required_nodup : NoDup ["python"; "sql"; "docker"]%string.
Proof. repeat constructor; set_solver. Qed.

(** Scenario A as an instance of the precision theorem. *)
Lemma calculate_precision_spec_witness :
  exists q,
    calculate_precision ["python"; "sql"]%string ["python"; "sql"; "docker"]%string = inr q
    /\ q == set_based_ratio ["python"; "sql"]%string ["python"; "sql"; "docker"]%string.
Proof.
  destruct (calculate_precision_spec ["python"; "sql"]%string
              ["python"; "sql"; "docker"]%string) as (q & Hq & _ & _ & Hset).
  exists q. split; [exact Hq|].
  apply Hset; [discriminate|exact sample_required_nodup].
Defined.

(** An applicant who has all three required skills. *)
Lemma precision_one_iff_witness :
  NoDup ["python"; "sql"; "docker"]%string
  /\ (returns_number
        (calculate_precision ["docker"; "python"; "sql"; "git"]%string
           ["python"; "sql"; "docker"]%string) 1
      <-> ((list_to_set ["python"; "sql"; "docker"]%string : gset string)
             ⊆ list_to_set ["docker"; "python"; "sql"; "git"]%string
           /\ ["python"; "sql"; "docker"]%string <> [])).
Proof.
  split; [exact sample_required_nodup|].
  apply (precision_one_iff ["docker"; "python"; "sql"; "git"]%string
           ["python"; "sql"; "docker"]%string).
  exact sample_required_nodup.
Defined.

Lemma sample_duplicates : ~ NoDup ["sql"; "sql"; "git"]%string.
Proof.
  intros Hnodup. apply NoDup_cons in Hnodup as [Hnotin _]. apply Hnotin. left.
Qed.

(** A required list that names [sql] twice. *)
Lemma precision_with_duplicates_witness :
  ~ NoDup ["sql"; "sql"; "git"]%string
  /\ exists q,
       calculate_precision ["sql"]%string ["sql"; "sql"; "git"]%string = inr q
       /\ 0 <= q /\ q <= 1
       /\ q <= set_based_ratio ["sql"]%string ["sql"; "sql"; "git"]%string
       /\ (q < set_based_ratio ["sql"]%string ["sql"; "sql"; "git"]%string
           <-> (list_to_set ["sql"]%string : gset string)
               ∩ list_to_set ["sql"; "sql"; "git"]%string ≠ ∅).
Proof.
  split; [exact sample_duplicates|].
  apply (precision_with_duplicates ["sql"]%string ["sql"; "sql"; "git"]%string).
  exact sample_duplicates.
Defined.

(** The two best of the three sample vacancies. *)
Lemma get_top_vacancies_spec_witness :
  (0 <= 2)%Z
  /\ exists s, stable_sort_descending similarity sample_vacancies s
       /\ (forall s', stable_sort_descending similarity sample_vacancies s' -> s' = s)
       /\ get_top_vacancies sample_vacancies (Some 2%Z) = take (Z.to_nat 2) s
       /\ (2%Z = 0%Z -> get_top_vacancies sample_vacancies (Some 2%Z) = [])
       /\ get_top_vacancies sample_vacancies None
          = get_top_vacancies sample_vacancies (Some 3%Z).
Proof.
  split; [lia|]. apply (get_top_vacancies_spec sample_vacancies 2). lia.
Defined.

Lemma elements_perm (X : gset string) : elements X ≡ₚ elements X.
Proof. reflexivity. Qed.

(** Scenario D (four missing skills, a broad link) and a variant with three
    missing skills (a course list), with [elements] as iteration order. *)
Lemma generate_recommendations_spec_witness :
  (exists query,
     generate_recommendations elements "Data Analyst" ["python"]%string
       sample_gap_vacancies None
     = BroadSearchLink ("https://www.coursera.org/search?query=" +:+ query)
     /\ query = "Data+Analyst"%string)
  /\ (exists courses,
        generate_recommendations elements "Data Analyst" ["python"; "docker"]%string
          sample_gap_vacancies (Some (1 # 2))
        = CourseList courses
        /\ length courses = 3%nat).
Proof.
  split.
  - destruct (generate_recommendations_spec elements elements_perm "Data Analyst"
                ["python"]%string sample_gap_vacancies None) as [Hbig _].
    destruct Hbig as (query & Hout & Hquery & _).
    { vm_compute. lia. }
    exists query. split; [exact Hout|]. rewrite Hquery. vm_compute. reflexivity.
  - destruct (generate_recommendations_spec elements elements_perm "Data Analyst"
                ["python"; "docker"]%string sample_gap_vacancies (Some (1 # 2)))
      as [_ Hsmall].
    destruct Hsmall as (courses & Hout & Hlen & _).
    { vm_compute. lia. }
    exists courses. split; [exact Hout|]. rewrite Hlen. vm_compute. reflexivity.
Defined.


(** Two references that resolve, and the same two around one that does
    not. *)
Lemma fetch_all_or_nothing_witness :
  (Forall (fun link => is_Some (sample_fetch link)) [link_1; link_2]
   /\ fetch_loop sample_fetch ascii_lower (map ascii_lower sample_skills)
        [link_1; link_2] [] []
      = inr (map similarity (sample_records [link_1; link_2]),
             sample_records [link_1; link_2])
   /\ length (sample_records [link_1; link_2]) = 2%nat
   /\ forall i link, [link_1; link_2] !! i = Some link ->
        exists data, sample_fetch link = Some data
          /\ sample_records [link_1; link_2] !! i
             = Some (record_of ascii_lower (map ascii_lower sample_skills) data))
  /\ (Exists (fun link => sample_fetch link = None) [link_1; link_gone; link_2]
      /\ fetch_loop sample_fetch ascii_lower (map ascii_lower sample_skills)
           [link_1; link_gone; link_2] [] []
         = inl RequestException
      /\ sample_analysis [link_1; link_gone; link_2] None = inr None).
Proof.
  assert (Forall (fun link => is_Some (sample_fetch link)) [link_1; link_2]) as Hall
    by (repeat constructor; vm_compute; eauto).
  assert (Exists (fun link => sample_fetch link = None) [link_1; link_gone; link_2])
    as Hex by (right; left; reflexivity).
  split.
  - split; [exact Hall|].
    exact (proj1 (fetch_all_or_nothing sample_fetch ascii_lower sample_questions
                    elements "Data Analyst" sample_skills [link_1; link_2] None) Hall).
  - split; [exact Hex|].
    exact (proj2 (fetch_all_or_nothing sample_fetch ascii_lower sample_questions
                    elements "Data Analyst" sample_skills [link_1; link_gone; link_2]
                    None) Hex).
Defined.

(** A skill with a space and [+] signs is copied into the url as it is. *)
Lemma recommend_courses_spec_witness :
  ["sql"; "c++ basics"]%string !! 1%nat = Some "c++ basics"%string
  /\ recommend_courses ["sql"; "c++ basics"]%string !! 1%nat
     = Some ("c++ basics", "https://www.coursera.org/search?query=c++ basics")%string.
Proof.
  split; [reflexivity|].
  destruct (recommend_courses_spec ["sql"; "c++ basics"]%string) as (_ & _ & Hlookup).
  apply (Hlookup 1%nat "c++ basics"%string). reflexivity.
Defined.

(** No reference at all: the exception leaves the function. *)
Lemma no_usable_records_witness :
  sample_records [] = []
  /\ sample_analysis [] None = inl ZeroDivisionError.
Proof.
  split; [reflexivity|].
  destruct (no_usable_records sample_fetch ascii_lower sample_questions elements
              "Data Analyst" sample_skills [] None eq_refl)
    as [[_ Hraise]|[Hne _]].
  - exact Hraise.
  - destruct (Hne eq_refl).
Defined.


(** * Further properties *)

(** ** More on [calculate_precision] *)

(** The precision is a number between 0 and 1, for any two lists. *)
Theorem calculate_precision_bounds (U R : list string) :
  exists q, calculate_precision U R = inr q /\ 0 <= q /\ q <= 1.
Proof.
  destruct R as [|x R].
  - exists 0. split; [reflexivity|]. split; discriminate.
  - eexists. split; [apply calculate_precision_cons|].
    setoid_rewrite precision_ratio.
    apply ratio_bounds; [simpl; lia|].
    etrans; [apply size_inter_le|apply size_list_to_set_le].
Qed.

(** The precision is 0 exactly when nothing is required or the applicant has
    none of the required skills. *)
Theorem calculate_precision_zero_iff (U R : list string) :
  exists q, calculate_precision U R = inr q /\
    (q == 0 <-> R = [] \/ (list_to_set U : gset string) ∩ list_to_set R = ∅).
Proof.
  destruct R as [|x R].
  - exists 0. split; [reflexivity|]. split; [by left|reflexivity].
  - eexists. split; [apply calculate_precision_cons|].
    setoid_rewrite precision_ratio.
    assert (0 < length (x :: R))%nat as Hlen by (simpl; lia).
    split.
    + intros Hq. right.
      destruct (size ((list_to_set U : gset string) ∩ list_to_set (x :: R))) eqn:Hsz.
      * apply size_empty_inv in Hsz. by unfold_leibniz.
      * exfalso. revert Hq. ratio_arith.
    + intros [HR|Hdisj]; [done|]. rewrite Hdisj, size_empty. reflexivity.
Qed.

(** Only the set of skills of the applicant matters, and the order of the
    required skills does not: duplicates and the order of entry leave the
    precision unchanged. *)
Theorem calculate_precision_user_set (U U' R R' : list string) :
  (list_to_set U : gset string) = list_to_set U' ->
  R ≡ₚ R' ->
  calculate_precision U R = calculate_precision U' R'.
Proof.
  intros HU HR. unfold calculate_precision, py_len.
  by rewrite HU, (Permutation_length HR), (list_to_set_perm_L R R' HR).
Qed.

(** Learning more skills never lowers the precision. *)
Theorem calculate_precision_monotone (U U' R : list string) :
  (list_to_set U : gset string) ⊆ list_to_set U' ->
  exists q q', calculate_precision U R = inr q
    /\ calculate_precision U' R = inr q' /\ q <= q'.
Proof.
  intros Hsub. destruct R as [|x R].
  - exists 0, 0. split; [reflexivity|]. split; [reflexivity|]. apply Qle_refl.
  - eexists _, _. split; [apply calculate_precision_cons|].
    split; [apply calculate_precision_cons|].
    setoid_rewrite precision_ratio.
    assert (size ((list_to_set U : gset string) ∩ list_to_set (x :: R))
            <= size ((list_to_set U' : gset string) ∩ list_to_set (x :: R)))%nat as Hle
      by (apply subseteq_size; set_solver).
    revert Hle. generalize (size ((list_to_set U : gset string) ∩ list_to_set (x :: R))).
    generalize (size ((list_to_set U' : gset string) ∩ list_to_set (x :: R))).
    intros k' k Hle. simpl length. ratio_arith.
Qed.

(** ** More on [get_top_vacancies] *)

(** A slice [l[:n]] is a prefix of [l], whatever the sign of [n]. *)
Lemma slice_to_prefix {A} (l : list A) (n : Z) : exists k, slice_to l n = take k l.
Proof. unfold slice_to. destruct (0 <=? n)%Z; eauto. Qed.

Lemma get_top_vacancies_prefix (v : list vacancy) (top_n : option Z) :
  exists k, get_top_vacancies v top_n = take k (sorted_reverse similarity v).
Proof. unfold get_top_vacancies. apply slice_to_prefix. Qed.

Lemma sorted_reverse_sorted_id {A} (key : A -> Q) (l : list A) :
  sorted_descending key l -> sorted_reverse key l = l.
Proof.
  intros Hsorted.
  apply (stable_sort_descending_unique key l); [apply sorted_reverse_stable|].
  split; [done|]. split; [done|]. by intros q.
Qed.

(** The number of vacancies returned: [n] of them when there are that many,
    for [n >= 0]; all but the last [-n] for a negative [n]; never more than
    there are. *)
Theorem get_top_vacancies_length (v : list vacancy) (n : Z) :
  (length (get_top_vacancies v (Some n)) <= length v)%nat
  /\ ((0 <= n)%Z ->
      length (get_top_vacancies v (Some n)) = Nat.min (Z.to_nat n) (length v))
  /\ ((n < 0)%Z ->
      length (get_top_vacancies v (Some n)) = (length v - Z.to_nat (- n))%nat).
Proof.
  pose proof (Permutation_length (sorted_reverse_perm similarity v)) as Hlen.
  split; [|split].
  - destruct (get_top_vacancies_prefix v (Some n)) as [k ->].
    rewrite length_take. lia.
  - intros Hn.
    change (get_top_vacancies v (Some n)) with (slice_to (sorted_reverse similarity v) n).
    rewrite slice_to_nonneg by done. rewrite length_take. lia.
  - intros Hn. rewrite get_top_vacancies_negative_slice by done.
    rewrite length_take. lia.
Qed.

(** The vacancies returned are taken from the input, and each of them has a
    similarity at least as large as every vacancy that is left out. *)
Theorem get_top_vacancies_dominates (v : list vacancy) (top_n : option Z) :
  exists rest,
    get_top_vacancies v top_n ++ rest ≡ₚ v
    /\ sorted_descending similarity (get_top_vacancies v top_n)
    /\ forall a b, a ∈ get_top_vacancies v top_n -> b ∈ rest ->
         similarity b <= similarity a.
Proof.
  destruct (get_top_vacancies_prefix v top_n) as [k ->].
  exists (drop k (sorted_reverse similarity v)).
  pose proof (sorted_reverse_sorted similarity v) as Hsorted.
  unfold sorted_descending in *.
  rewrite <- (take_drop k (sorted_reverse similarity v)) in Hsorted at 1.
  apply StronglySorted_app in Hsorted as (Hcross & Htake & _).
  split; [by rewrite take_drop, sorted_reverse_perm|].
  split; [done|]. intros a b Ha Hb. by apply Hcross.
Qed.

(** For [n >= 0], ranking the ranked vacancies again changes nothing. *)
Theorem get_top_vacancies_idempotent (v : list vacancy) (n : Z) :
  (0 <= n)%Z ->
  get_top_vacancies (get_top_vacancies v (Some n)) (Some n)
  = get_top_vacancies v (Some n).
Proof.
  intros Hn.
  change (get_top_vacancies v (Some n)) with (slice_to (sorted_reverse similarity v) n).
  rewrite slice_to_nonneg by done.
  change (get_top_vacancies ?l (Some n)) with (slice_to (sorted_reverse similarity l) n).
  rewrite slice_to_nonneg by done.
  rewrite sorted_reverse_sorted_id; [apply take_idemp|].
  pose proof (sorted_reverse_sorted similarity v) as Hsorted.
  unfold sorted_descending in *.
  rewrite <- (take_drop (Z.to_nat n) (sorted_reverse similarity v)) in Hsorted.
  by apply StronglySorted_app_1_l in Hsorted.
Qed.


(** ** More on the recommendation step *)

Lemma Qlt_bool_iff (a b : Q) : Qlt_bool a b = true <-> a < b.
Proof.
  unfold Qlt_bool. rewrite negb_true_iff. split.
  - intros Hle. apply Qnot_le_lt. intros Hba.
    apply Qle_bool_iff in Hba. congruence.
  - intros Hlt. destruct (Qle_bool b a) eqn:Hle; [|done].
    apply Qle_bool_iff in Hle. by apply Qlt_not_le in Hlt.
Qed.

(** A skill is in the missing-skill union when some vacancy below the
    threshold requires it and the applicant does not have it. *)
Lemma elem_of_missing_union (applicant_skills : list string)
    (vacancies : list vacancy) (threshold : Q) (skill : string) :
  skill ∈ missing_union applicant_skills vacancies threshold
  <-> exists v, v ∈ vacancies /\ similarity v < threshold
        /\ skill ∈ vacancy_skills v /\ skill ∉ applicant_skills.
Proof.
  unfold missing_union. rewrite elem_of_union_list. split.
  - intros (X & HX & Hskill).
    apply (list_elem_of_fmap (A:=vacancy)) in HX as (v & -> & Hv).
    apply list_elem_of_In, filter_In in Hv as [Hv Hweak].
    exists v. split; [by apply list_elem_of_In|].
    split; [by apply Qlt_bool_iff|]. set_solver.
  - intros (v & Hv & Hweak & Hreq & Hnot).
    eexists. split.
    + apply (list_elem_of_fmap_2 (A:=vacancy)).
      apply list_elem_of_In, filter_In. split; [by apply list_elem_of_In|].
      by apply Qlt_bool_iff.
    + set_solver.
Qed.

Lemma missing_union_empty_iff (applicant_skills : list string)
    (vacancies : list vacancy) (threshold : Q) :
  missing_union applicant_skills vacancies threshold = ∅
  <-> forall v, v ∈ vacancies -> similarity v < threshold ->
        forall skill, skill ∈ vacancy_skills v -> skill ∈ applicant_skills.
Proof.
  split.
  - intros HU v Hv Hweak skill Hreq.
    destruct (decide (skill ∈ applicant_skills)) as [|Hnot]; [done|].
    assert (skill ∈ missing_union applicant_skills vacancies threshold) as Hin
      by (apply elem_of_missing_union; eauto).
    rewrite HU in Hin. set_solver.
  - intros Hall. apply set_eq. intros skill. split; [|set_solver].
    intros (v & Hv & Hweak & Hreq & Hnot)%elem_of_missing_union.
    destruct Hnot. by eapply Hall.
Qed.

Section RecommendationOutcomes.

Context (set_order : gset string -> list string).
Hypothesis set_order_perm : forall X : gset string, set_order X ≡ₚ elements X.

(** The missing skills are listed once each: they are the required skills
    that the applicant does not have. *)
Theorem get_missing_skills_spec (user_skills required_skills : list string) :
  NoDup (get_missing_skills set_order user_skills required_skills)
  /\ forall skill,
       skill ∈ get_missing_skills set_order user_skills required_skills
       <-> skill ∈ required_skills /\ skill ∉ user_skills.
Proof.
  unfold get_missing_skills. split.
  - rewrite set_order_perm. apply NoDup_elements.
  - intros skill. rewrite set_order_perm, elem_of_elements. set_solver.
Qed.

Lemma generate_recommendations_cases (vacancy_title : string)
    (applicant_skills : list string) (vacancies : list vacancy)
    (threshold : option Q) :
  let U := missing_union applicant_skills vacancies
             (default threshold_default threshold) in
  generate_recommendations set_order vacancy_title applicant_skills vacancies threshold
  = if (3 <? size U)%nat then BroadSearchLink (coursera_search +:+ quote_plus vacancy_title)
    else if negb (size U =? 0)%nat then CourseList (recommend_courses (set_order U))
    else NoRecommendation.
Proof.
  intros U. unfold generate_recommendations.
  by rewrite (collect_missing_union set_order set_order_perm), (left_id_L ∅ (∪)).
Qed.

Lemma generate_recommendations_none_empty (vacancy_title : string)
    (applicant_skills : list string) (vacancies : list vacancy)
    (threshold : option Q) :
  generate_recommendations set_order vacancy_title applicant_skills vacancies threshold
  = NoRecommendation
  <-> missing_union applicant_skills vacancies (default threshold_default threshold) = ∅.
Proof.
  rewrite generate_recommendations_cases.
  set (U := missing_union applicant_skills vacancies (default threshold_default threshold)).
  split.
  - destruct (3 <? size U)%nat; [done|].
    destruct (size U =? 0)%nat eqn:Hz; [|done].
    intros _. apply Nat.eqb_eq in Hz. apply size_empty_inv in Hz. by unfold_leibniz.
  - intros ->. by rewrite size_empty.
Qed.

(** The function falls off its end (returns [None]) exactly when no vacancy
    below the threshold requires a skill that the applicant lacks; in
    particular when no vacancy is below the threshold. *)
Theorem generate_recommendations_none_iff (vacancy_title : string)
    (applicant_skills : list string) (vacancies : list vacancy)
    (threshold : option Q) :
  generate_recommendations set_order vacancy_title applicant_skills vacancies threshold
  = NoRecommendation
  <-> forall v, v ∈ vacancies -> similarity v < default (8 # 10) threshold ->
        forall skill, skill ∈ vacancy_skills v -> skill ∈ applicant_skills.
Proof.
  rewrite generate_recommendations_none_empty.
  apply missing_union_empty_iff.
Qed.

(** A course list has one to three entries, never names a skill that the
    applicant has, and names only skills required by a vacancy below the
    threshold. *)
Theorem course_list_sound (vacancy_title : string)
    (applicant_skills : list string) (vacancies : list vacancy)
    (threshold : option Q) (courses : list (string * string)) :
  generate_recommendations set_order vacancy_title applicant_skills vacancies threshold
  = CourseList courses ->
  (1 <= length courses <= 3)%nat
  /\ forall skill url, (skill, url) ∈ courses ->
       (skill ∉ applicant_skills)
       /\ exists v, v ∈ vacancies /\ similarity v < default (8 # 10) threshold
            /\ skill ∈ vacancy_skills v.
Proof.
  rewrite generate_recommendations_cases.
  change (default (8 # 10) threshold) with (default threshold_default threshold).
  set (U := missing_union applicant_skills vacancies (default threshold_default threshold)).
  destruct (3 <? size U)%nat eqn:Hbig; [done|].
  destruct (size U =? 0)%nat eqn:Hz; [done|].
  apply Nat.ltb_ge in Hbig. apply Nat.eqb_neq in Hz.
  cbn [negb]. intros [= <-].
  unfold recommend_courses. rewrite recommend_courses_loop_map, app_nil_l.
  split.
  - rewrite length_map, (length_set_order set_order set_order_perm). lia.
  - intros skill url Hin.
    apply (list_elem_of_fmap (A:=string)) in Hin as (s & [= -> ->] & Hs).
    rewrite set_order_perm, elem_of_elements in Hs.
    apply elem_of_missing_union in Hs as (v & Hv & Hweak & Hreq & Hnot).
    split; [done|]. by exists v.
Qed.

End RecommendationOutcomes.

(** ** Signs in double precision *)














(** ** More on the analysis *)

Section AnalysisOutcomes.

Context (fetch_json : string -> option posting) (lower : string -> string)
        (interview_questions : string -> questions_value)
        (set_order : gset string -> list string).

Lemma resolved_records_length (applicant_skills : list string) (links : list string) :
  Forall (fun link => is_Some (fetch_json link)) links ->
  length (resolved_records fetch_json lower applicant_skills links) = length links.
Proof.
  induction 1 as [|link rest [data Hdata] _ IH]; [done|].
  rewrite (resolved_records_cons _ _ _ _ _ _ Hdata). cbn. by rewrite IH.
Qed.

Lemma elem_of_resolved_records (applicant_skills : list string) (links : list string)
    (v : vacancy) :
  v ∈ resolved_records fetch_json lower applicant_skills links
  <-> exists link data, link ∈ links /\ fetch_json link = Some data
        /\ v = record_of lower applicant_skills data.
Proof.
  unfold resolved_records. rewrite (list_elem_of_fmap (A:=posting)). split.
  - intros (data & -> & Hdata). apply list_elem_of_omap in Hdata as (link & Hlink & Hd).
    by exists link, data.
  - intros (link & data & Hlink & Hd & ->). exists data. split; [done|].
    apply list_elem_of_omap. by exists link.
Qed.

Lemma resolve_exclusive (links : list string) :
  Forall (fun link => is_Some (fetch_json link)) links ->
  Exists (fun link => fetch_json link = None) links -> False.
Proof.
  intros Hall Hex. apply Exists_exists in Hex as (link & Hlink & Hnone).
  rewrite Forall_forall in Hall. destruct (Hall link Hlink) as [data Hdata].
  congruence.
Qed.

(** The dictionary returned when every reference resolves. *)
Lemma analysis_returns (vacancy_title : string) (applicant_skills : list string)
    (links : list string) (threshold_ready : option Q) :
  links <> [] ->
  Forall (fun link => is_Some (fetch_json link)) links ->
  let vacancies := resolved_records fetch_json lower (map lower applicant_skills) links in
  let precisions := map similarity vacancies in
  let score :=
    double_value (SFdiv 53 1024 (to_double (py_sum precisions))
                    (to_double (py_len precisions))) in
  vacancy_description_and_applicant_skills fetch_json lower interview_questions
    set_order vacancy_title applicant_skills links threshold_ready
  = inr (Some
      (if Qle_bool (default threshold_default threshold_ready) score then
         AnalysisResult score precisions (Some (interview_questions vacancy_title))
           (Some (get_top_vacancies vacancies None)) None
       else
         AnalysisResult score precisions None None
           (Some (generate_recommendations set_order vacancy_title
                    (map lower applicant_skills) vacancies None)))).
Proof.
  intros Hne Hall vacancies precisions score.
  unfold vacancy_description_and_applicant_skills, analysis_body.
  rewrite (fetch_loop_ok _ _ _ _ _ _ Hall), py_bind_inr. cbn [fst snd app].
  fold vacancies. fold precisions.
  assert (length precisions = length links) as Hlen
    by (subst precisions vacancies; rewrite length_map; by apply resolved_records_length).
  destruct precisions as [|p ps] eqn:Hps; [by destruct links|].
  rewrite py_float_truediv_len, py_bind_inr. fold score.
  by destruct (Qle_bool (default threshold_default threshold_ready) score).
Qed.

Lemma analysis_aborts (vacancy_title : string) (applicant_skills : list string)
    (links : list string) (threshold_ready : option Q) :
  Exists (fun link => fetch_json link = None) links ->
  vacancy_description_and_applicant_skills fetch_json lower interview_questions
    set_order vacancy_title applicant_skills links threshold_ready
  = inr None.
Proof.
  intros Hex. unfold vacancy_description_and_applicant_skills, analysis_body.
  by rewrite (fetch_loop_fail _ _ _ _ _ _ Hex).
Qed.

(** The three outcomes of the analysis: it raises (a [ZeroDivisionError])
    exactly when there is no reference; it returns [None] exactly when some
    reference fails; it returns a dictionary exactly when there is at least
    one reference and all resolve. *)
Theorem analysis_outcomes (vacancy_title : string) (applicant_skills : list string)
    (links : list string) (threshold_ready : option Q) :
  let outcome :=
    vacancy_description_and_applicant_skills fetch_json lower interview_questions
      set_order vacancy_title applicant_skills links threshold_ready in
  (forall e, outcome = inl e <-> links = [] /\ e = ZeroDivisionError)
  /\ (outcome = inr None <-> Exists (fun link => fetch_json link = None) links)
  /\ ((exists r, outcome = inr (Some r))
      <-> links <> [] /\ Forall (fun link => is_Some (fetch_json link)) links).
Proof.
  intros outcome. subst outcome.
  destruct links as [|link rest].
  - split; [|split].
    + intros e. split; [intros [= <-]; done|intros [_ ->]; done].
    + split; [done|]. by intros Hex%Exists_nil.
    + split; [by intros [r Hr]|by intros [Hne _]].
  - destruct (links_resolve_or_not fetch_json (link :: rest)) as [Hall|Hex].
    + rewrite (analysis_returns vacancy_title applicant_skills (link :: rest)
                 threshold_ready ltac:(done) Hall).
      split; [|split].
      * intros e. split; [done|by intros [? _]].
      * split; [done|]. intros Hex. destruct (resolve_exclusive _ Hall Hex).
      * split; [done|]. intros _. eauto.
    + rewrite (analysis_aborts _ _ _ _ Hex).
      split; [|split].
      * intros e. split; [done|by intros [? _]].
      * done.
      * split; [by intros [r Hr]|]. intros [_ Hall].
        destruct (resolve_exclusive _ Hall Hex).
Qed.

Lemma analysis_inv (vacancy_title : string) (applicant_skills : list string)
    (links : list string) (threshold_ready : option Q) (r : analysis_result) :
  vacancy_description_and_applicant_skills fetch_json lower interview_questions
    set_order vacancy_title applicant_skills links threshold_ready
  = inr (Some r) ->
  let vacancies := resolved_records fetch_json lower (map lower applicant_skills) links in
  let precisions := map similarity vacancies in
  let score :=
    double_value (SFdiv 53 1024 (to_double (py_sum precisions))
                    (to_double (py_len precisions))) in
  links <> [] /\ Forall (fun link => is_Some (fetch_json link)) links
  /\ length vacancies = length links
  /\ similarity_score r = score /\ precision_list r = precisions
  /\ (Qle_bool (default threshold_default threshold_ready) score = true ->
      questions r = Some (interview_questions vacancy_title)
      /\ offers r = Some (get_top_vacancies vacancies None)
      /\ recommendations r = None)
  /\ (Qle_bool (default threshold_default threshold_ready) score = false ->
      questions r = None /\ offers r = None
      /\ recommendations r
         = Some (generate_recommendations set_order vacancy_title
                   (map lower applicant_skills) vacancies None)).
Proof.
  intros Hr vacancies precisions score.
  destruct links as [|link rest]; [discriminate|].
  destruct (links_resolve_or_not fetch_json (link :: rest)) as [Hall|Hex].
  - rewrite (analysis_returns vacancy_title applicant_skills (link :: rest)
               threshold_ready ltac:(done) Hall) in Hr.
    fold vacancies precisions score in Hr.
    split; [done|]. split; [done|].
    split; [by apply resolved_records_length|].
    destruct (Qle_bool (default threshold_default threshold_ready) score);
      injection Hr as <-; cbn; repeat split; done.
  - rewrite (analysis_aborts _ _ _ _ Hex) in Hr. discriminate.
Qed.

(** In a Ready result the offers are the best fetched records: as many as
    there are references, up to three, each one the record of a reference,
    in descending order of similarity. *)
Theorem ready_offers (vacancy_title : string) (applicant_skills : list string)
    (links : list string) (threshold_ready : option Q) (r : analysis_result) :
  vacancy_description_and_applicant_skills fetch_json lower interview_questions
    set_order vacancy_title applicant_skills links threshold_ready
  = inr (Some r) ->
  is_Some (offers r) ->
  exists top,
    offers r = Some top
    /\ length top = Nat.min 3 (length links)
    /\ sorted_descending similarity top
    /\ (forall v, v ∈ top ->
          exists link data, link ∈ links /\ fetch_json link = Some data
            /\ v = record_of lower (map lower applicant_skills) data)
    /\ default (8 # 10) threshold_ready <= similarity_score r.
Proof.
  intros Hr Hoffers.
  apply analysis_inv in Hr as (Hne & Hall & Hlen & Hscore & _ & Hready & Hnot).
  destruct (Qle_bool (default threshold_default threshold_ready) _) eqn:Hge.
  - destruct (Hready eq_refl) as (_ & Hoff & _).
    eexists. split; [exact Hoff|].
    change (get_top_vacancies ?l None) with (slice_to (sorted_reverse similarity l) 3).
    rewrite slice_to_nonneg by lia.
    set (vacancies := resolved_records _ _ _ _) in *.
    pose proof (sorted_reverse_sorted similarity vacancies) as Hsorted.
    split.
    { rewrite length_take, (Permutation_length (sorted_reverse_perm similarity vacancies)).
      rewrite Hlen. reflexivity. }
    split.
    { unfold sorted_descending in *.
      rewrite <- (take_drop (Z.to_nat 3) (sorted_reverse similarity vacancies)) in Hsorted.
      by apply StronglySorted_app_1_l in Hsorted. }
    split.
    { intros v Hv. apply subseteq_take in Hv.
      rewrite sorted_reverse_perm in Hv. by apply elem_of_resolved_records in Hv. }
    rewrite Hscore. by apply Qle_bool_iff.
  - destruct (Hnot eq_refl) as (_ & Hoff & _). rewrite Hoff in Hoffers.
    by destruct Hoffers.
Qed.



End AnalysisOutcomes.

(** A NotReady result need not carry a recommendation, even at the default
    threshold and with postings that list their skills without repetition:
    with eighty-one postings of precision 0.8 the rounded score is below 0.8
    while no precision is, so that no skill is collected and
    [recommendations] is [None]. *)
Theorem not_ready_without_recommendation :
  exists r,
    sample_analysis (replicate 81 link_3) None = inr (Some r)
    /\ precision_list r = replicate 81 (py_float (4 # 5))
    /\ 8 # 10 <= py_float (4 # 5)
    /\ similarity_score r < 8 # 10
    /\ not_ready_branch r
    /\ recommendations r = Some NoRecommendation
    /\ exists data,
         sample_fetch link_3 = Some data
         /\ posting_key_skills data <> []
         /\ NoDup (map ascii_lower (posting_key_skills data)).
Proof.
  eexists. split; [vm_compute; reflexivity|].
  split; [vm_compute; reflexivity|].
  split; [vm_compute; discriminate|].
  split; [vm_compute; reflexivity|].
  split; [by repeat split; try eexists|].
  split; [reflexivity|].
  eexists. split; [reflexivity|]. split; [discriminate|].
  apply (bool_decide_unpack (NoDup _)). vm_compute. reflexivity.
Qed.

(** ** [get_links] *)

Lemma truthy_iff (s : string) : truthy s = true <-> s <> ""%string.
Proof.
  unfold truthy. rewrite negb_true_iff. split.
  - intros Hneq ->. discriminate.
  - intros Hne. by apply String.eqb_neq.
Qed.

Section SearchProperties.

Context (search : search_params -> option (list (option string))).

Lemma collect_urls_filter (items : list (option string)) (links : list string) :
  collect_urls items links = links ++ List.filter truthy (omap id items).
Proof.
  revert links. induction items as [|[url|] rest IH]; intros links; cbn.
  - by rewrite app_nil_r.
  - destruct (truthy url); [|apply IH]. rewrite IH. by rewrite <- app_assoc.
  - apply IH.
Qed.

Lemma elem_of_page_urls (items : list (option string)) (link : string) :
  link ∈ List.filter truthy (omap id items) <-> Some link ∈ items /\ link <> ""%string.
Proof.
  rewrite list_elem_of_In, filter_In, <- list_elem_of_In, truthy_iff.
  rewrite list_elem_of_omap. split.
  - intros [(item & Hitem & Hid) Hne]. cbn in Hid. by subst.
  - intros [Hitem Hne]. split; [|done]. by exists (Some link).
Qed.

Lemma get_links_loop_closed (text : string) (count p k : nat) (links : list string) :
  (k <= count)%nat ->
  (forall j, (j < k)%nat -> ~ page_is_empty search text (p + j)) ->
  k = count \/ page_is_empty search text (p + k) ->
  get_links_loop search text count (Z.of_nat p) links
  = links ++ concat (map (page_links search text) (seq p k)).
Proof.
  revert p k links. induction count as [|count IH]; intros p k links Hk Hfull Hstop.
  - assert (k = 0)%nat as -> by lia. cbn. by rewrite app_nil_r.
  - cbn [get_links_loop]. destruct k as [|k].
    + destruct Hstop as [|Hempty]; [lia|].
      unfold page_is_empty in Hempty. rewrite Nat.add_0_r in Hempty.
      rewrite Hempty. cbn. by rewrite app_nil_r.
    + assert (~ page_is_empty search text p) as Hp.
      { specialize (Hfull 0%nat ltac:(lia)). by rewrite Nat.add_0_r in Hfull. }
      assert (get_links_loop search text count (Z.of_nat p + 1)
                (links ++ page_links search text p)
              = links ++ concat (map (page_links search text) (seq p (S k)))) as Hnext.
      { replace (Z.of_nat p + 1)%Z with (Z.of_nat (S p)) by lia.
        rewrite (IH (S p) k); [by rewrite <- app_assoc|lia| |].
        - intros j Hj. replace (S p + j)%nat with (p + S j)%nat by lia.
          apply Hfull. lia.
        - destruct Hstop as [Hstop|Hstop]; [left; lia|right].
          by replace (S p + k)%nat with (p + S k)%nat by lia. }
      unfold page_is_empty in Hp. unfold page_links in Hnext.
      destruct (search (SearchParams text 1 (Z.of_nat p) 100)) as [[|item rest]|].
      * done.
      * by rewrite collect_urls_filter.
      * by rewrite app_nil_r in Hnext.
Qed.

(** The links returned are those of the pages before the first page that
    answers with no items (or of all [pages] pages when there is none), in
    page order; a page whose request fails contributes nothing and does not
    stop the scan. *)
Theorem get_links_pages (vacancy : string) (grade : option string)
    (pages : option Z) (k : nat) :
  let text := vacancy +:+ " " +:+ py_str grade in
  (k <= Z.to_nat (default 2%Z pages))%nat ->
  (forall j, (j < k)%nat -> ~ page_is_empty search text j) ->
  k = Z.to_nat (default 2%Z pages) \/ page_is_empty search text k ->
  get_links search vacancy grade pages
  = concat (map (page_links search text) (seq 0 k)).
Proof.
  intros text Hk Hfull Hstop. unfold get_links.
  change 0%Z with (Z.of_nat 0).
  by rewrite (get_links_loop_closed _ _ 0 k).
Qed.

Lemma get_links_loop_sound (text : string) (count p : nat) (links : list string)
    (link : string) :
  link ∈ get_links_loop search text count (Z.of_nat p) links ->
  link ∈ links
  \/ (link <> ""%string
      /\ exists q items, (p <= q < p + count)%nat
           /\ search (SearchParams text 1 (Z.of_nat q) 100) = Some items
           /\ Some link ∈ items).
Proof.
  revert p links. induction count as [|count IH]; intros p links Hin; [by left|].
  cbn [get_links_loop] in Hin.
  replace (Z.of_nat p + 1)%Z with (Z.of_nat (S p)) in Hin by lia.
  destruct (search (SearchParams text 1 (Z.of_nat p) 100)) as [[|item rest]|] eqn:Hpage.
  - by left.
  - apply IH in Hin as [Hin|(Hne & q & items & Hq & Hitems & Hlink)].
    + rewrite collect_urls_filter in Hin.
      apply elem_of_app in Hin as [Hin|Hin]; [by left|right].
      apply elem_of_page_urls in Hin as [Hitem Hne].
      split; [done|]. exists p, (item :: rest). split; [lia|done].
    + right. split; [done|]. exists q, items. split; [lia|done].
  - apply IH in Hin as [Hin|(Hne & q & items & Hq & Hitems & Hlink)]; [by left|].
    right. split; [done|]. exists q, items. split; [lia|done].
Qed.

(** Every link returned is the non-empty [url] of an item of one of the
    first [pages] pages; for [pages <= 0] nothing is returned. *)
Theorem get_links_sound (vacancy : string) (grade : option string)
    (pages : option Z) (link : string) :
  link ∈ get_links search vacancy grade pages ->
  link <> ""%string
  /\ exists page items,
       (0 <= page < default 2 pages)%Z
       /\ search (SearchParams (vacancy +:+ " " +:+ py_str grade) 1 page 100)
          = Some items
       /\ Some link ∈ items.
Proof.
  unfold get_links. change 0%Z with (Z.of_nat 0). intros Hin.
  apply get_links_loop_sound in Hin as [Hin|(Hne & q & items & Hq & Hitems & Hlink)].
  - by apply elem_of_nil in Hin.
  - split; [done|]. exists (Z.of_nat q), items. split; [lia|done].
Qed.

End SearchProperties.

(** ** [get_vacancy_easyoffer] and [get_interview_questions] *)

Lemma str_in_empty (hay : string) : str_in "" hay = true.
Proof. by destruct hay. Qed.

Section EasyofferProperties.

Context (lower : string -> string)
        (front_page : option (list (option anchor)))
        (question_page : option string -> option (option (list (option string)))).

Lemma card_matches_dec (vacancy_name : string) (h5 : option anchor) :
  card_matches lower vacancy_name h5 \/ ~ card_matches lower vacancy_name h5.
Proof.
  destruct h5 as [link|]; [|right; by intros (link & Hl & _)].
  destruct (str_in (lower vacancy_name) (lower (anchor_text link))) eqn:Hin.
  - left. by exists link.
  - right. intros (link' & [= <-] & Hin'). congruence.
Qed.

Lemma find_card_none (vacancy_name : string) (h5_tags : list (option anchor)) :
  find_card lower vacancy_name h5_tags = None
  <-> forall h5, h5 ∈ h5_tags -> ~ card_matches lower vacancy_name h5.
Proof.
  induction h5_tags as [|h5 rest IH]; cbn [find_card].
  - split; [|done]. intros _ h5 Hh5. by apply elem_of_nil in Hh5.
  - destruct h5 as [link|].
    + destruct (str_in (lower vacancy_name) (lower (anchor_text link))) eqn:Hin.
      * split; [done|]. intros Hall. destruct (Hall (Some link)); [left|].
        by exists link.
      * rewrite IH. split.
        -- intros Hall h5 [->|Hh5]%elem_of_cons; [|by apply Hall].
           intros (link' & [= <-] & Hin'). congruence.
        -- intros Hall h5 Hh5. apply Hall. by right.
    + rewrite IH. split.
      * intros Hall h5 [->|Hh5]%elem_of_cons; [|by apply Hall].
        by intros (link' & Hl & _).
      * intros Hall h5 Hh5. apply Hall. by right.
Qed.

Lemma find_card_first (vacancy_name : string) (h5_tags : list (option anchor))
    (i : nat) (link : anchor) :
  h5_tags !! i = Some (Some link) ->
  str_in (lower vacancy_name) (lower (anchor_text link)) = true ->
  (forall j h5, (j < i)%nat -> h5_tags !! j = Some h5 ->
     ~ card_matches lower vacancy_name h5) ->
  find_card lower vacancy_name h5_tags
  = Some ("https://easyoffer.ru" +:+ py_str (anchor_href link)).
Proof.
  revert i. induction h5_tags as [|h5 rest IH]; intros i Hi Hin Hbefore; [done|].
  destruct i as [|i].
  - injection Hi as ->. cbn [find_card]. by rewrite Hin.
  - assert (~ card_matches lower vacancy_name h5) as Hno
      by (apply (Hbefore 0%nat); [lia|done]).
    assert (find_card lower vacancy_name (h5 :: rest) = find_card lower vacancy_name rest)
      as ->.
    { cbn [find_card]. destruct h5 as [link0|]; [|done].
      destruct (str_in (lower vacancy_name) (lower (anchor_text link0))) eqn:Hin0; [|done].
      destruct Hno. by exists link0. }
    apply (IH i); [done|done|].
    intros j h5' Hj Hh5'. apply (Hbefore (S j)); [lia|done].
Qed.

(** The url returned is that of the first card, in document order, whose
    link text contains the wanted name, case-insensitively. *)
Theorem easyoffer_first_match (vacancy_name : string)
    (h5_tags : list (option anchor)) (i : nat) (link : anchor) :
  front_page = Some h5_tags ->
  h5_tags !! i = Some (Some link) ->
  str_in (lower vacancy_name) (lower (anchor_text link)) = true ->
  (forall j h5, (j < i)%nat -> h5_tags !! j = Some h5 ->
     ~ card_matches lower vacancy_name h5) ->
  get_vacancy_easyoffer lower front_page vacancy_name
  = Some ("https://easyoffer.ru" +:+ py_str (anchor_href link)).
Proof.
  intros Hpage Hi Hin Hbefore. unfold get_vacancy_easyoffer. rewrite Hpage.
  by apply (find_card_first vacancy_name h5_tags i).
Qed.

Lemma find_card_nonempty (vacancy_name : string) (h5_tags : list (option anchor))
    (url : string) :
  find_card lower vacancy_name h5_tags = Some url ->
  String.prefix "https://easyoffer.ru" url = true.
Proof.
  induction h5_tags as [|[link|] rest IH]; cbn [find_card]; [done| |done].
  destruct (str_in (lower vacancy_name) (lower (anchor_text link))); [|done].
  intros [= <-]. cbn. repeat (rewrite ?Ascii.eqb_refl; cbn). by destruct (py_str _).
Qed.

(** The three kinds of result tell the three situations apart: [None] means
    that the front page was read and no card matches; the empty string means
    that the request failed; any other result starts with the site
    address. *)
Theorem easyoffer_outcomes (vacancy_name : string) :
  let result := get_vacancy_easyoffer lower front_page vacancy_name in
  (result = None
   <-> exists h5_tags, front_page = Some h5_tags
         /\ forall h5, h5 ∈ h5_tags -> ~ card_matches lower vacancy_name h5)
  /\ (result = Some ""%string <-> front_page = None)
  /\ (forall url, result = Some url -> url <> ""%string ->
        String.prefix "https://easyoffer.ru" url = true).
Proof.
  intros result. subst result. unfold get_vacancy_easyoffer.
  destruct front_page as [h5_tags|].
  - split; [|split].
    + rewrite find_card_none. split; [by exists h5_tags|].
      by intros (h5_tags' & [= <-] & Hall).
    + split; [|done]. intros Hurl. by apply find_card_nonempty in Hurl.
    + intros url Hurl _. by eapply find_card_nonempty.
  - split; [|split].
    + split; [done|]. by intros (h5_tags & Hpage & _).
    + done.
    + by intros url [= <-] Hne.
Qed.

(** An empty name matches every link text: when [lower] maps the empty
    string to itself, the first card that has a link is returned. *)
Theorem easyoffer_empty_name (h5_tags : list (option anchor)) (i : nat)
    (link : anchor) :
  lower "" = ""%string ->
  front_page = Some h5_tags ->
  h5_tags !! i = Some (Some link) ->
  (forall j, (j < i)%nat -> h5_tags !! j = Some None) ->
  get_vacancy_easyoffer lower front_page ""
  = Some ("https://easyoffer.ru" +:+ py_str (anchor_href link)).
Proof.
  intros Hlower Hpage Hi Hbefore. unfold get_vacancy_easyoffer. rewrite Hpage.
  apply (find_card_first "" h5_tags i); [done|by rewrite Hlower, str_in_empty|].
  intros j h5 Hj Hh5 (link' & -> & _).
  specialize (Hbefore j Hj). congruence.
Qed.

(** When no card matches the title, or the front page cannot be read, the
    question look-up is called with [None] or with the empty string; such a
    request raises a request error, and the questions are the empty string
    rather than a list. *)
Theorem questions_without_card (vacancy_name : string) :
  question_page None = None ->
  question_page (Some ""%string) = None ->
  (front_page = None
   \/ exists h5_tags, front_page = Some h5_tags
        /\ forall h5, h5 ∈ h5_tags -> ~ card_matches lower vacancy_name h5) ->
  get_interview_questions question_page
    (get_vacancy_easyoffer lower front_page vacancy_name)
  = QuestionsEmptyStr.
Proof.
  intros Hnone Hempty Hcase. unfold get_interview_questions, get_vacancy_easyoffer.
  destruct Hcase as [->|(h5_tags & -> & Hall)].
  - by rewrite Hempty.
  - apply find_card_none in Hall. by rewrite Hall, Hnone.
Qed.

End EasyofferProperties.

(** ** The skill list of the sidebar *)

Section SidebarProperties.

Context (strip : string -> string).

Lemma skills_well_formed_mono (texts texts' : list string) (st : session) :
  (forall text, text ∈ texts -> text ∈ texts') ->
  skills_well_formed strip texts st -> skills_well_formed strip texts' st.
Proof.
  intros Hsub (Hnodup & Hempty & Hfrom). split; [done|]. split; [done|].
  intros skill Hskill. destruct (Hfrom skill Hskill) as (text & Htext & ->).
  exists text. split; [by apply Hsub|done].
Qed.

Lemma add_skill_well_formed (texts : list string) (skills : list string)
    (text : string) :
  skills_well_formed strip texts (Session skills "") ->
  skills_well_formed strip (text :: texts) (add_skill strip (Session skills text)).
Proof.
  intros (Hnodup & Hempty & Hfrom). cbn in Hnodup, Hempty, Hfrom.
  unfold add_skill. cbn [session_skills session_skill_input].
  destruct (truthy (strip text)) eqn:Htruthy; cbn [andb].
  - case_bool_decide as Hin; cbn [negb].
    + split; [done|]. split; [done|]. cbn. intros skill Hskill.
      destruct (Hfrom skill Hskill) as (t & Ht & ->). exists t. split; [by right|done].
    + apply truthy_iff in Htruthy. split; [|split]; cbn.
      * apply NoDup_app. split; [done|]. split; [|apply NoDup_singleton].
        intros skill Hskill ->%list_elem_of_singleton. done.
      * intros [Hold|Heq%list_elem_of_singleton]%elem_of_app; [done|]. congruence.
      * intros skill [Hold| ->%list_elem_of_singleton]%elem_of_app.
        -- destruct (Hfrom skill Hold) as (t & Ht & ->). exists t. split; [by right|done].
        -- exists text. split; [left|done].
  - split; [done|]. split; [done|]. cbn. intros skill Hskill.
    destruct (Hfrom skill Hskill) as (t & Ht & ->). exists t. split; [by right|done].
Qed.

Lemma sidebar_run_well_formed (events : list sidebar_event) (texts : list string)
    (st : session) :
  skills_well_formed strip texts (Session (session_skills st) "") ->
  skills_well_formed strip (typed_texts events ++ texts)
    (sidebar_run strip events st).
Proof.
  revert texts st. induction events as [|ev events IH]; intros texts st Hst.
  - cbn. by destruct Hst as (? & ? & ?).
  - unfold sidebar_run. cbn [fold_left]. fold (sidebar_run strip events).
    destruct ev as [text|].
    + cbn [sidebar_step typed_texts omap list_omap].
      apply (skills_well_formed_mono (typed_texts events ++ text :: texts)).
      { intros t. rewrite !elem_of_app, !elem_of_cons. tauto. }
      apply IH.
      pose proof (add_skill_well_formed texts (session_skills st) text Hst) as H.
      by destruct H as (? & ? & ?).
    + cbn [sidebar_step]. apply IH. cbn. split; [apply NoDup_nil_2|].
      split; [apply not_elem_of_nil|]. intros skill Hskill.
      by apply elem_of_nil in Hskill.
Qed.

(** Whatever the user types and however often the list is cleared, starting
    from a new session the skills stay pairwise distinct, none is the empty
    string, and each is the stripped text of something that was typed. *)
Theorem sidebar_skills_invariant (events : list sidebar_event) :
  skills_well_formed strip (typed_texts events)
    (sidebar_run strip events session_init).
Proof.
  rewrite <- (app_nil_r (typed_texts events)).
  apply sidebar_run_well_formed. cbn.
  split; [apply NoDup_nil_2|]. split; [apply not_elem_of_nil|].
  intros skill Hskill. by apply elem_of_nil in Hskill.
Qed.

(** When stripping the empty string gives the empty string, running the
    callback a second time changes nothing. *)
Theorem add_skill_idempotent (st : session) :
  strip "" = ""%string ->
  add_skill strip (add_skill strip st) = add_skill strip st.
Proof.
  intros Hstrip. unfold add_skill at 2.
  destruct (truthy (strip (session_skill_input st))
            && negb (bool_decide (strip (session_skill_input st) ∈ session_skills st)))
    eqn:Hadd.
  - unfold add_skill. cbn [session_skills session_skill_input].
    rewrite Hstrip, Hadd. reflexivity.
  - unfold add_skill. by rewrite !Hadd.
Qed.

End SidebarProperties.

(** ** Instances of the further properties in the sample world *)

(** The same skills entered twice and in another order. *)
Lemma calculate_precision_user_set_witness :
  (list_to_set ["sql"; "python"; "sql"]%string : gset string)
  = list_to_set ["python"; "sql"]%string
  /\ ["docker"; "sql"]%string ≡ₚ ["sql"; "docker"]%string
  /\ calculate_precision ["sql"; "python"; "sql"]%string ["docker"; "sql"]%string
     = calculate_precision ["python"; "sql"]%string ["sql"; "docker"]%string.
Proof.
  assert ((list_to_set ["sql"; "python"; "sql"]%string : gset string)
          = list_to_set ["python"; "sql"]%string) as Hset by set_solver.
  assert (["docker"; "sql"]%string ≡ₚ ["sql"; "docker"]%string) as Hperm
    by apply Permutation_swap.
  split; [exact Hset|]. split; [exact Hperm|].
  exact (calculate_precision_user_set _ _ _ _ Hset Hperm).
Defined.

(** Learning docker. *)
Lemma calculate_precision_monotone_witness :
  (list_to_set ["sql"]%string : gset string) ⊆ list_to_set ["sql"; "docker"]%string
  /\ exists q q',
       calculate_precision ["sql"]%string ["sql"; "docker"; "git"]%string = inr q
       /\ calculate_precision ["sql"; "docker"]%string ["sql"; "docker"; "git"]%string
          = inr q'
       /\ q <= q'.
Proof.
  assert ((list_to_set ["sql"]%string : gset string)
          ⊆ list_to_set ["sql"; "docker"]%string) as Hsub by set_solver.
  split; [exact Hsub|].
  exact (calculate_precision_monotone ["sql"]%string ["sql"; "docker"]%string
           ["sql"; "docker"; "git"]%string Hsub).
Defined.

(** Two of three vacancies, and all but the last two. *)
Lemma get_top_vacancies_length_witness :
  length (get_top_vacancies sample_vacancies (Some 2%Z)) = 2%nat
  /\ length (get_top_vacancies sample_vacancies (Some (-2)%Z)) = 1%nat.
Proof.
  split.
  - destruct (get_top_vacancies_length sample_vacancies 2) as (_ & Hpos & _).
    rewrite Hpos by lia. reflexivity.
  - destruct (get_top_vacancies_length sample_vacancies (-2)) as (_ & _ & Hneg).
    rewrite Hneg by lia. reflexivity.
Defined.

(** The best sample vacancy is at least as good as the two left out. *)
Lemma get_top_vacancies_dominates_witness :
  exists rest,
    get_top_vacancies sample_vacancies (Some 1%Z) ++ rest ≡ₚ sample_vacancies
    /\ forall b, b ∈ rest -> similarity b <= 95 # 100.
Proof.
  destruct (get_top_vacancies_dominates sample_vacancies (Some 1%Z))
    as (rest & Hperm & _ & Hdom).
  exists rest. split; [exact Hperm|].
  intros b Hb.
  apply (Hdom (Vacancy "third" "" "" [] (95 # 100)) b); [left|exact Hb].
Defined.

Lemma get_top_vacancies_idempotent_witness :
  (0 <= 2)%Z
  /\ get_top_vacancies (get_top_vacancies sample_vacancies (Some 2%Z)) (Some 2%Z)
     = get_top_vacancies sample_vacancies (Some 2%Z).
Proof.
  split; [lia|]. apply (get_top_vacancies_idempotent sample_vacancies 2). lia.
Defined.

(** The applicant lacks docker and aws. *)
Lemma get_missing_skills_spec_witness :
  NoDup (get_missing_skills elements ["sql"]%string ["sql"; "docker"; "aws"; "docker"]%string)
  /\ ("docker"%string
        ∈ get_missing_skills elements ["sql"]%string
            ["sql"; "docker"; "aws"; "docker"]%string
      <-> "docker"%string ∈ ["sql"; "docker"; "aws"; "docker"]%string
          /\ "docker"%string ∉ ["sql"]%string).
Proof.
  destruct (get_missing_skills_spec elements elements_perm ["sql"]%string
              ["sql"; "docker"; "aws"; "docker"]%string) as [Hnodup Hiff].
  split; [exact Hnodup|apply Hiff].
Defined.

(** No sample vacancy is below the threshold 0: nothing is recommended. *)
Lemma generate_recommendations_none_iff_witness :
  generate_recommendations elements "Data Analyst" ["python"]%string
    sample_gap_vacancies (Some 0)
  = NoRecommendation.
Proof.
  apply (generate_recommendations_none_iff elements elements_perm).
  intros v Hv Hweak. exfalso.
  cbn [default] in Hweak.
  apply elem_of_cons in Hv as [->|Hv]; [by apply Qlt_irrefl in Hweak|].
  apply elem_of_cons in Hv as [->|Hv]; [by apply Qlt_irrefl in Hweak|].
  by apply elem_of_nil in Hv.
Defined.

(** The three courses of the applicant who knows python and docker. *)
Lemma course_list_sound_witness :
  exists courses,
    generate_recommendations elements "Data Analyst" ["python"; "docker"]%string
      sample_gap_vacancies (Some (1 # 2))
    = CourseList courses
    /\ (1 <= length courses <= 3)%nat
    /\ forall skill url, (skill, url) ∈ courses ->
         skill ∉ ["python"; "docker"]%string.
Proof.
  eexists. split; [vm_compute; reflexivity|].
  destruct (course_list_sound elements elements_perm "Data Analyst"
              ["python"; "docker"]%string sample_gap_vacancies (Some (1 # 2)) _
              ltac:(vm_compute; reflexivity)) as [Hlen Hsound].
  split; [exact Hlen|].
  intros skill url Hin. exact (proj1 (Hsound skill url Hin)).
Defined.



(** The first posting alone is enough to be ready. *)
Lemma ready_offers_witness :
  exists r top,
    sample_analysis [link_1] None = inr (Some r)
    /\ offers r = Some top
    /\ length top = 1%nat
    /\ 8 # 10 <= similarity_score r.
Proof.
  assert (exists r, sample_analysis [link_1] None = inr (Some r) /\ is_Some (offers r))
    as (r & Hr & Hoffers).
  { eexists. split; [vm_compute; reflexivity|]. eexists. reflexivity. }
  pose proof (ready_offers sample_fetch ascii_lower sample_questions elements
                "Data Analyst" sample_skills [link_1] None r) as Hready.
  specialize (Hready Hr). specialize (Hready Hoffers).
  destruct Hready as (top & Htop & Hlen & _ & _ & Hscore).
  exists r, top. split; [exact Hr|]. split; [exact Htop|].
  split; [exact Hlen|exact Hscore].
Defined.

(** Five pages are asked for: page 0 has one usable link, page 1 fails, page 2
    has one link and page 3 is empty. *)
Lemma get_links_pages_witness :
  get_links sample_search "Data Analyst" (Some "Junior"%string) (Some 5%Z)
  = [link_1; link_2].
Proof.
  rewrite (get_links_pages sample_search "Data Analyst" (Some "Junior"%string)
             (Some 5%Z) 3).
  - reflexivity.
  - cbn. lia.
  - intros j Hj. unfold page_is_empty.
    destruct j as [|[|[|j]]]; [discriminate|discriminate|discriminate|lia].
  - right. reflexivity.
Defined.

Lemma get_links_sound_witness :
  link_2 ∈ get_links sample_search "Data Analyst" None (Some 3%Z)
  /\ link_2 <> ""%string.
Proof.
  assert (link_2 ∈ get_links sample_search "Data Analyst" None (Some 3%Z)) as Hin
    by (right; left).
  split; [exact Hin|].
  exact (proj1 (get_links_sound sample_search "Data Analyst" None (Some 3%Z) link_2 Hin)).
Defined.

Lemma sample_no_match_before (j : nat) (h5 : option anchor) :
  (j < 2)%nat -> sample_cards !! j = Some h5 ->
  ~ card_matches ascii_lower "data analyst" h5.
Proof.
  intros Hj Hh5 (link & -> & Hin).
  destruct j as [|[|j]]; [discriminate| |lia].
  injection Hh5 as <-. vm_compute in Hin. discriminate.
Qed.

(** The third card is the first whose text contains the title. *)
Lemma easyoffer_first_match_witness :
  get_vacancy_easyoffer ascii_lower sample_front_page "data analyst"
  = Some "https://easyoffer.ru/rating/data_analyst"%string.
Proof.
  exact (easyoffer_first_match ascii_lower sample_front_page "data analyst"
           sample_cards 2
           (Anchor "Data Analyst" (Some "/rating/data_analyst"%string))
           eq_refl eq_refl eq_refl sample_no_match_before).
Defined.

Lemma easyoffer_outcomes_witness :
  get_vacancy_easyoffer ascii_lower None "data analyst" = Some ""%string
  /\ String.prefix "https://easyoffer.ru"
       "https://easyoffer.ru/rating/data_analyst" = true.
Proof.
  split.
  - apply (easyoffer_outcomes ascii_lower None "data analyst"). reflexivity.
  - apply (easyoffer_outcomes ascii_lower sample_front_page "data analyst");
      [reflexivity|discriminate].
Defined.

(** The first card has no link; the second one is returned. *)
Lemma easyoffer_empty_name_witness :
  get_vacancy_easyoffer ascii_lower sample_front_page ""
  = Some "https://easyoffer.ru/rating/python"%string.
Proof.
  apply (easyoffer_empty_name ascii_lower sample_front_page sample_cards 1
           (Anchor "Python Developer" (Some "/rating/python"%string)));
    [reflexivity|reflexivity|reflexivity|].
  intros j Hj. destruct j as [|j]; [reflexivity|lia].
Defined.

(** The front page cannot be read. *)
Lemma questions_without_card_witness :
  get_interview_questions sample_question_page
    (get_vacancy_easyoffer ascii_lower None "Data Analyst")
  = QuestionsEmptyStr.
Proof.
  apply (questions_without_card ascii_lower None sample_question_page "Data Analyst");
    [reflexivity|reflexivity|by left].
Defined.

Lemma add_skill_idempotent_witness :
  sample_strip "" = ""%string
  /\ add_skill sample_strip (add_skill sample_strip (Session ["SQL"]%string " Python "))
     = add_skill sample_strip (Session ["SQL"]%string " Python ").
Proof.
  split; [reflexivity|].
  apply (add_skill_idempotent sample_strip). reflexivity.
Defined.
